(** * FlowBuddy shortcuts store: a shallow embedding of
      [src/addons/shortcuts/shortcuts_save.py]

    The save file is one JSON document with the three mappings [settings],
    [groups] and [tasks].  Every operation of the module opens the file,
    loads the whole document, changes it and writes it back, so the document
    is the state that is threaded through the operations below.  Methods that
    assign to attributes of [self] run in a state that also holds [self].

    Python dictionaries keep insertion order.  [get_group_id_of_task] depends
    on that order, so [groups] is an association list; no embedded operation
    observes the order of [settings] or [tasks], which are finite maps. *)

From Stdlib Require Import Ascii String.
From stdpp Require Import base strings list gmap pretty.

Open Scope string_scope.
Open Scope list_scope.
Open Scope nat_scope.

(** ** Exceptions *)

Inductive exn : Type :=
  (* the classes of the module *)
  | NotFound (name : string)
  | Found (name : string)
  | NoTasks (group_name : string)
  | TaskNotFoundInGroup (group_name task_id : string)
  | TaskAlreadyInGroup (group_name task_id : string)
  | NotFoundInFile (_id : string)
  | InvalidURL (_url : string)
  (* built-in classes the module lets through or catches *)
  | KeyError (key : string)
  | TypeError
  | AttributeError (attr : string)
  | StopIteration
  | IndexError
  | FileNotFoundError
  | PermissionError
  | UnicodeDecodeError
  | JSONDecodeError
  (* not a Python exception: a loop or a recursion that did not finish within
     the fuel of the model *)
  | OutOfFuel.

Inductive outcome (A : Type) : Type :=
  | Returns (a : A)
  | Raises (e : exn).
Arguments Returns {A} a.
Arguments Raises {A} e.

(** ** JSON values (the [settings] mapping holds arbitrary ones) *)

#[warnings="-register-all"]
Inductive json : Type :=
  | JNull
  | JBool (b : bool)
  | JNum (z : Z)
  | JStr (s : string)
  | JArr (items : list json)
  | JObj (members : list (string * json)).

(** ** Ordered dictionaries *)

Section odict.
Context {V : Type}.

(** [d[k]], [None] standing for [KeyError]. *)
Fixpoint dict_get (k : string) (d : list (string * V)) : option V :=
  match d with
  | [] => None
  | (k', v) :: d' => if decide (k = k') then Some v else dict_get k d'
  end.

(** [d.update({k: v})]: an existing key keeps its position, a new key goes
    to the end. *)
Fixpoint dict_update (k : string) (v : V) (d : list (string * V))
  : list (string * V) :=
  match d with
  | [] => [(k, v)]
  | (k', v') :: d' =>
      if decide (k = k') then (k, v) :: d' else (k', v') :: dict_update k v d'
  end.

(** [d.pop(k)]: the dictionary without the key, [None] standing for
    [KeyError]. *)
Fixpoint dict_pop (k : string) (d : list (string * V))
  : option (list (string * V)) :=
  match d with
  | [] => None
  | (k', v') :: d' =>
      if decide (k = k') then Some d'
      else cons (k', v') <$> dict_pop k d'
  end.

Definition dict_keys (d : list (string * V)) : list string := d.*1.

(** [k in d] *)
Definition dict_mem (k : string) (d : list (string * V)) : bool :=
  bool_decide (k ∈ dict_keys d).
End odict.

(** ** The document *)

Module TaskData.
(** What [get_task_data] returns and [save_task] stores under the task
    id. *)
Record t : Type := mk {
  task_name : string;
  button_text : option string;
  url : list string;
  file_path : option string;
  directory_path : option string }.
End TaskData.

Module GroupData.
(** What [save_group] stores under the group id. *)
Record t : Type := mk {
  group_name : string;
  group_tasks : list string }.
End GroupData.

Record document : Type := Document {
  settings : gmap string json;
  groups : list (string * GroupData.t);
  tasks : gmap string TaskData.t }.

Definition set_settings (d : document) (s : gmap string json) : document :=
  Document s (groups d) (tasks d).
Definition set_groups (d : document) (g : list (string * GroupData.t))
  : document :=
  Document (settings d) g (tasks d).
Definition set_tasks (d : document) (t : gmap string TaskData.t) : document :=
  Document (settings d) (groups d) t.

(** The document the initialization writes:
    [{"settings": {}, "groups": {}, "tasks": {}}]. *)
Definition empty_document : document := Document ∅ [] ∅.

(** ** State and exceptions *)

Definition M (S A : Type) : Type := S → outcome A * S.

Definition ret {S A} (a : A) : M S A := λ s, (Returns a, s).
Definition raise {S A} (e : exn) : M S A := λ s, (Raises e, s).
Definition bind {S A B} (m : M S A) (k : A → M S B) : M S B :=
  λ s, match m s with
       | (Returns a, s') => k a s'
       | (Raises e, s') => (Raises e, s')
       end.

Notation "x <- m ;; k" := (bind m (λ x, k))
  (at level 100, m at next level, right associativity).
Notation "m ;;; k" := (bind m (λ _, k))
  (at level 100, right associativity).

(** [with open(FILE_PATH, "r") as save_file: json_data = json.load(save_file)] *)
Definition json_load : M document document := λ d, (Returns d, d).
(** [with open(FILE_PATH, "w") as save_file: json.dump(json_data, save_file)] *)
Definition json_dump (json_data : document) : M document unit :=
  λ _, (Returns tt, json_data).

(** A method that assigns to [self]: the state is [self] and the document. *)
Definition get_self {Self} : M (Self * document) Self := λ s, (Returns s.1, s).
Definition put_self {Self} (self : Self) : M (Self * document) unit :=
  λ s, (Returns tt, (self, s.2)).
(** A call that only touches the save file, made from inside a method. *)
Definition on_file {Self A} (m : M document A) : M (Self * document) A :=
  λ s, let '(r, d) := m s.2 in (r, (s.1, d)).

(** [for x in xs: body(x)] over a list the body does not change. *)
Fixpoint for_each {S A} (xs : list A) (body : A → M S unit) : M S unit :=
  match xs with
  | [] => ret tt
  | x :: xs' => body x ;;; for_each xs' body
  end.

(** ** Strings and lists as Python has them *)

(** [s.replace(old, new)] for one-character [old] and [new]. *)
Fixpoint str_replace (old new : ascii) (s : string) : string :=
  match s with
  | EmptyString => EmptyString
  | String c s' =>
      String (if decide (c = old) then new else c) (str_replace old new s')
  end.

(** [c.isspace()] on the code points below 256. *)
Definition isspace (c : ascii) : bool :=
  let n := nat_of_ascii c in
  ((9 <=? n) && (n <=? 13)) || ((28 <=? n) && (n <=? 32))
  || (n =? 133) || (n =? 160).

(** [s.split()]: the maximal runs of characters that are not whitespace.
    [cur] is the run being read, reversed. *)
Fixpoint split_go (cur : list ascii) (s : string) : list string :=
  let flush := match cur with
               | [] => []
               | _ => [string_of_list_ascii (rev cur)]
               end in
  match s with
  | EmptyString => flush
  | String c s' =>
      if isspace c then flush ++ split_go [] s' else split_go (c :: cur) s'
  end.
Definition str_split (s : string) : list string := split_go [] s.

(** [needle in hay] *)
Definition str_in (needle hay : string) : bool :=
  match String.index 0 needle hay with Some _ => true | None => false end.

(** [xs.remove(x)]: drops the first occurrence. *)
Fixpoint list_remove (x : string) (xs : list string) : list string :=
  match xs with
  | [] => []
  | y :: xs' => if decide (x = y) then xs' else y :: list_remove x xs'
  end.

(** [xs.insert(index, x)]: a negative index counts from the end, and the
    position is clamped to the list. *)
Definition list_insert_at (index : Z) (x : string) (xs : list string)
  : list string :=
  let n := Z.of_nat (length xs) in
  let pos := if (index <? 0)%Z then Z.max 0 (index + n) else Z.min index n in
  take (Z.to_nat pos) xs ++ x :: drop (Z.to_nat pos) xs.

(** ** The network *)

(** What [requests.get] hands back, as far as [verify_url_root] reads it:
    the final [url] and, for every response of [history], its [is_redirect]
    flag. *)
Record Response : Type := {
  resp_url : string;
  history_is_redirect : list bool }.

(** ** The objects *)

Module TaskClass.
Record obj : Type := mk {
  task_id : string;
  group_id : string;
  task_name : string;
  button_text : option string;
  _url : list string;
  file_path : option string;
  directory_path : option string }.
End TaskClass.

Module GroupClass.
(** [i] is the position of the iteration; it is not set before [__iter__]
    has run.  [group_tasks] is always a list: the constructor replaces
    [None] by [[]]. *)
Record obj : Type := mk {
  group_id : string;
  _group_name : string;
  group_tasks : list string;
  i : option nat }.

Definition set_group_name (self : obj) (name : string) : obj :=
  mk (group_id self) name (group_tasks self) (i self).
Definition set_group_tasks (self : obj) (l : list string) : obj :=
  mk (group_id self) (_group_name self) l (i self).
Definition set_i (self : obj) (n : nat) : obj :=
  mk (group_id self) (_group_name self) (group_tasks self) (Some n).
End GroupClass.

Section store.
(** [requests.get]; [None] stands for a raised
    [requests.exceptions.RequestException]. *)
Variable requests_get : string → option Response.

(** *** URL normalization (TaskClass) *)

Definition verify_url_root (url_check : string) : option string :=
  let url_check :=
    if negb (str_in "http" (String.substring 0 4 url_check))
    then "http://" +:+ url_check else url_check in
  match requests_get url_check with
  | None => None
  | Some _req =>
      match history_is_redirect _req with
      | [] => Some url_check
      | is_redirect :: _ => if is_redirect then Some (resp_url _req) else None
      end
  end.

(** The loop of the [url] setter.  [enumerate(url_list)] reads position
    [index] of the list as it is at that moment and stops once the position
    is past the end; the body overwrites or pops that position of the same
    list.  One unit of fuel pays for one round; the list never grows, so its
    length is fuel enough ([url_loop_scan]). *)
Fixpoint url_loop (fuel index : nat) (url_list : list string) : list string :=
  match fuel with
  | 0 => url_list
  | S fuel' =>
      match url_list !! index with
      | None => url_list
      | Some _url =>
          match verify_url_root _url with
          | Some fixed_url =>
              url_loop fuel' (S index) (<[index:=fixed_url]> url_list)
          | None => url_loop fuel' (S index) (delete index url_list)
          end
      end
  end.

(** The three kinds of value the [url] setter tells apart. *)
Inductive url_arg : Type :=
  | UrlNone
  | UrlList (urls : list string)
  | UrlStr (new_url : string).

(** [TaskClass.url] setter: the new value of [self._url]. *)
Definition url_setter (new_url : url_arg) : list string :=
  match new_url with
  | UrlNone => []
  | UrlList urls => urls
  | UrlStr new_url =>
      let new_url := str_replace ","%char " "%char new_url in
      let url_list := str_split new_url in
      url_loop (length url_list) 0 url_list
  end.

(** What the loop computes, by recursion on the candidates still to be
    read: a candidate that follows a dropped one is kept unchecked. *)
Fixpoint url_scan (candidates : list string) : list string :=
  match candidates with
  | [] => []
  | u :: rest =>
      match verify_url_root u with
      | Some fixed_url => fixed_url :: url_scan rest
      | None =>
          match rest with
          | [] => []
          | v :: rest' => v :: url_scan rest'
          end
      end
  end.

(** What the specification describes: every candidate checked, in order. *)
Definition url_checked (candidates : list string) : list string :=
  omap verify_url_root candidates.

(** *** Ids *)

Definition is_id_used (_id : string) : M document bool :=
  json_data <- json_load ;;
  ret (dict_mem _id (groups json_data)
       || bool_decide (is_Some (tasks json_data !! _id))).

(** The [while is_id_used(...)] loop of both constructors.  [cur] is the
    id tried now, [count] the suffix of the next one; one unit of fuel pays
    for one test of the loop condition. *)
Fixpoint generate_id_loop (fuel : nat) (stem cur : string) (count : N)
  : M document string :=
  match fuel with
  | 0 => raise OutOfFuel
  | S fuel' =>
      used <- is_id_used cur ;;
      if used
      then generate_id_loop fuel' stem (stem +:+ "-" +:+ pretty count)
             (count + 1)%N
      else ret cur
  end.

(** [prefix] is ["T_"] or ["G_"], [id_self] is [id(self)]. *)
Definition generate_id (fuel : nat) (prefix : string) (id_self : N)
  : M document string :=
  let stem := prefix +:+ pretty id_self in
  generate_id_loop fuel stem stem 1.

(** *** TaskClass *)

Definition TaskClass_get_task_data (self : TaskClass.obj) : TaskData.t :=
  TaskData.mk (TaskClass.task_name self) (TaskClass.button_text self)
    (TaskClass._url self) (TaskClass.file_path self)
    (TaskClass.directory_path self).

Definition TaskClass_save_task (self : TaskClass.obj) : M document unit :=
  json_data <- json_load ;;
  json_dump
    (set_tasks json_data
       (<[TaskClass.task_id self := TaskClass_get_task_data self]>
          (tasks json_data))).

(** [TaskClass.__init__].  [fuel] and [id_self] matter only when [task_id]
    is [None]. *)
Definition TaskClass_init (fuel : nat) (id_self : N)
    (group_id task_name : string) (task_id : option string)
    (button_text : option string) (url : url_arg)
    (file_path directory_path : option string) : M document TaskClass.obj :=
  tid <- match task_id with
         | None => generate_id fuel "T_" id_self
         | Some task_id => ret task_id
         end ;;
  let self := TaskClass.mk tid group_id task_name button_text
                (url_setter url) file_path directory_path in
  TaskClass_save_task self ;;;
  ret self.

Definition TaskClass_edit_task (task_name : string)
    (button_text : option string) (url : url_arg)
    (file_path directory_path : option string)
  : M (TaskClass.obj * document) unit :=
  self <- get_self ;;
  let self := TaskClass.mk (TaskClass.task_id self) (TaskClass.group_id self)
                task_name button_text (url_setter url) file_path
                directory_path in
  put_self self ;;;
  on_file (TaskClass_save_task self).

(** *** GroupClass *)

Definition GroupClass_group_name (self : GroupClass.obj) : string :=
  GroupClass._group_name self.

Definition GroupClass_save_group (self : GroupClass.obj) : M document unit :=
  json_data <- json_load ;;
  json_dump
    (set_groups json_data
       (dict_update (GroupClass.group_id self)
          (GroupData.mk (GroupClass_group_name self)
             (GroupClass.group_tasks self))
          (groups json_data))).

(** [self.save_group()] from inside a method that has assigned to [self]. *)
Definition save_self : M (GroupClass.obj * document) unit :=
  self <- get_self ;;
  on_file (GroupClass_save_group self).

(** [GroupClass.__init__] *)
Definition GroupClass_init (fuel : nat) (id_self : N) (group_name : string)
    (group_id : option string) (group_tasks : option (list string))
  : M document GroupClass.obj :=
  gid <- match group_id with
         | None => generate_id fuel "G_" id_self
         | Some group_id => ret group_id
         end ;;
  let self := GroupClass.mk gid group_name
                match group_tasks with
                | None | Some [] => []
                | Some group_tasks => group_tasks
                end
                None in
  GroupClass_save_group self ;;;
  ret self.

(** [__iter__] and [__next__] touch [self] only. *)
Definition GroupClass_iter : M GroupClass.obj unit :=
  λ self, (Returns tt, GroupClass.set_i self 0).

Definition GroupClass_next : M GroupClass.obj string :=
  λ self,
    match GroupClass.i self with
    | None => (Raises (AttributeError "i"), self)
    | Some i =>
        if (Z.of_nat i <? Z.of_nat (length (GroupClass.group_tasks self)) - 1)%Z
        then match GroupClass.group_tasks self !! i with
             | Some task_id => (Returns task_id, GroupClass.set_i self (i + 1))
             | None => (Raises IndexError, self)
             end
        else (Raises StopIteration, self)
    end.

(** [[task_id for task_id in group]]: [next] is called until it raises
    [StopIteration]; one unit of fuel pays for one call. *)
Fixpoint consume (fuel : nat) (yielded : list string)
  : M GroupClass.obj (list string) :=
  λ it,
    match fuel with
    | 0 => (Raises OutOfFuel, it)
    | S fuel' =>
        match GroupClass_next it with
        | (Returns task_id, it') => consume fuel' (yielded ++ [task_id]) it'
        | (Raises StopIteration, it') => (Returns yielded, it')
        | (Raises e, it') => (Raises e, it')
        end
    end.

Definition GroupClass_iterate (fuel : nat) : M GroupClass.obj (list string) :=
  GroupClass_iter ;;; consume fuel [].

Definition GroupClass_set_group_name (new_group_name : string)
  : M (GroupClass.obj * document) unit :=
  self <- get_self ;;
  put_self (GroupClass.set_group_name self new_group_name) ;;;
  save_self.

Definition GroupClass_insert (index : Z) (new_task_id : string)
  : M (GroupClass.obj * document) unit :=
  self <- get_self ;;
  if bool_decide (new_task_id ∈ GroupClass.group_tasks self)
  then raise (TaskAlreadyInGroup (GroupClass_group_name self) new_task_id)
  else
    put_self (GroupClass.set_group_tasks self
                (list_insert_at index new_task_id
                   (GroupClass.group_tasks self))) ;;;
    save_self.

Definition GroupClass_append (new_task_id : string)
  : M (GroupClass.obj * document) unit :=
  self <- get_self ;;
  if bool_decide (new_task_id ∈ GroupClass.group_tasks self)
  then raise (TaskAlreadyInGroup (GroupClass_group_name self) new_task_id)
  else
    put_self (GroupClass.set_group_tasks self
                (GroupClass.group_tasks self ++ [new_task_id])) ;;;
    save_self.

Definition GroupClass_remove (task_id : string)
  : M (GroupClass.obj * document) unit :=
  self <- get_self ;;
  if bool_decide (task_id ∉ GroupClass.group_tasks self)
  then raise (TaskNotFoundInGroup (GroupClass_group_name self) task_id)
  else
    put_self (GroupClass.set_group_tasks self
                (list_remove task_id (GroupClass.group_tasks self))) ;;;
    save_self.

Definition GroupClass_create_task (fuel : nat) (id_new : N)
    (task_name : string) (task_id : option string)
    (button_text : option string) (url : url_arg)
    (file_path directory_path : option string)
  : M (GroupClass.obj * document) TaskClass.obj :=
  self <- get_self ;;
  new_task <- on_file (TaskClass_init fuel id_new (GroupClass.group_id self)
                         task_name task_id button_text url file_path
                         directory_path) ;;
  put_self (GroupClass.set_group_tasks self
              (GroupClass.group_tasks self ++ [TaskClass.task_id new_task])) ;;;
  save_self ;;;
  ret new_task.

(** *** Lookups *)

Definition get_group_id_of_task (task_id : string) : M document string :=
  json_data <- json_load ;;
  match list_find (λ kv, task_id ∈ GroupData.group_tasks kv.2)
          (groups json_data) with
  | Some (_, (group_id, _)) => ret group_id
  | None =>
      raise (NotFound ("Task with id '" +:+ task_id
                       +:+ "' not found in any groups."))
  end.

Definition get_task_by_id (task_id : string) : M document TaskClass.obj :=
  json_data <- json_load ;;
  match tasks json_data !! task_id with
  | None => raise (NotFoundInFile task_id)
  | Some task_data =>
      group_id <- get_group_id_of_task task_id ;;
      TaskClass_init 0 0 group_id (TaskData.task_name task_data)
        (Some task_id) (TaskData.button_text task_data)
        (UrlList (TaskData.url task_data)) (TaskData.file_path task_data)
        (TaskData.directory_path task_data)
  end.

Definition get_group_by_id (group_id : string) : M document GroupClass.obj :=
  json_data <- json_load ;;
  match dict_get group_id (groups json_data) with
  | None => raise (KeyError group_id)
  | Some group_data =>
      GroupClass_init 0 0 (GroupData.group_name group_data) (Some group_id)
        (Some (GroupData.group_tasks group_data))
  end.

(** *** Deleting *)

(** [obj.method(...)] on an object nothing else refers to: the object is
    gone after the call. *)
Definition call_on {Self A} (self : Self) (m : M (Self * document) A)
  : M document A :=
  λ d, let '(r, s) := m (self, d) in (r, s.2).

(** [delete_task_by_id], [TaskClass.delete_task] and
    [GroupClass.delete_task] call each other.  The two methods are written
    over the function they call back, and [delete_task_by_id] ties the knot;
    one unit of fuel pays for one call of [delete_task_by_id]. *)
Definition GroupClass_delete_task_with
    (delete_task_by_id : string → M document unit) (task_id : string)
  : M (GroupClass.obj * document) unit :=
  self <- get_self ;;
  if bool_decide (task_id ∉ GroupClass.group_tasks self)
  then raise (TaskNotFoundInGroup (GroupClass_group_name self) task_id)
  else
    GroupClass_remove task_id ;;;
    on_file (delete_task_by_id task_id).

Definition TaskClass_delete_task_with
    (delete_task_by_id : string → M document unit) (self : TaskClass.obj)
  : M document unit :=
  group <- get_group_by_id (TaskClass.group_id self) ;;
  call_on group
    (GroupClass_delete_task_with delete_task_by_id (TaskClass.task_id self)).

Fixpoint delete_task_by_id (fuel : nat) (task_id : string)
  : M document unit :=
  match fuel with
  | 0 => raise OutOfFuel
  | S fuel' =>
      task <- get_task_by_id task_id ;;
      TaskClass_delete_task_with (delete_task_by_id fuel') task
  end.

Definition TaskClass_delete_task (fuel : nat) (self : TaskClass.obj)
  : M document unit :=
  TaskClass_delete_task_with (delete_task_by_id fuel) self.

Definition GroupClass_delete_task (fuel : nat) (task_id : string)
  : M (GroupClass.obj * document) unit :=
  GroupClass_delete_task_with (delete_task_by_id fuel) task_id.

Definition GroupClass_delete_group_and_tasks (fuel : nat)
    (self : GroupClass.obj) : M document unit :=
  json_data <- json_load ;;
  match dict_pop (GroupClass.group_id self) (groups json_data) with
  | None => raise (KeyError (GroupClass.group_id self))
  | Some groups' =>
      json_dump (set_groups json_data groups') ;;;
      for_each (GroupClass.group_tasks self)
        (λ task, t <- get_task_by_id task ;; TaskClass_delete_task fuel t)
  end.

Definition delete_group_by_id (fuel : nat) (group_id : string)
  : M document unit :=
  group <- get_group_by_id group_id ;;
  GroupClass_delete_group_and_tasks fuel group.

Definition GroupClass_delete_group (fuel : nat) (self : GroupClass.obj)
  : M document unit :=
  delete_group_by_id fuel (GroupClass.group_id self).

(** *** Settings *)

Definition apply_settings (name : string) (value : json) : M document unit :=
  json_data <- json_load ;;
  json_dump (set_settings json_data (<[name := value]> (settings json_data))).

Definition get_setting (name : string) : M document json :=
  json_data <- json_load ;;
  match settings json_data !! name with
  | Some value => ret value
  | None => raise (NotFound name)
  end.

Definition remove_setting (name : string) : M document unit :=
  json_data <- json_load ;;
  (if bool_decide (is_Some (settings json_data !! name))
   then json_dump (set_settings json_data (delete name (settings json_data)))
   else ret tt) ;;;
  raise (NotFound name).

End store.

(** ** Store initialization (the [try] block at the top of the module) *)

Module Init.
(** The save file, by what [open(FILE_PATH)] followed by [json.load] does
    with it. *)
Inductive backing_file : Type :=
  | Missing                (* no such file: FileNotFoundError *)
  | Unreadable             (* no read permission: PermissionError *)
  | Undecodable            (* bytes that are not text: UnicodeDecodeError *)
  | Malformed              (* text that is not JSON: JSONDecodeError *)
  | Holds (data : json).   (* JSON text *)

Definition load : M backing_file json :=
  λ f, match f with
       | Missing => (Raises FileNotFoundError, f)
       | Unreadable => (Raises PermissionError, f)
       | Undecodable => (Raises UnicodeDecodeError, f)
       | Malformed => (Raises JSONDecodeError, f)
       | Holds data => (Returns data, f)
       end.

(** [data[key]] for a string [key] *)
Definition subscript {S} (data : json) (key : string) : M S json :=
  match data with
  | JObj members =>
      match dict_get key members with
      | Some v => ret v
      | None => raise (KeyError key)
      end
  | _ => raise TypeError
  end.

(** [{"settings": {}, "groups": {}, "tasks": {}}] *)
Definition empty_json : json :=
  JObj [("settings", JObj []); ("groups", JObj []); ("tasks", JObj [])].

Definition try_body : M backing_file unit :=
  data <- load ;;
  subscript data "settings" ;;;
  subscript data "groups" ;;;
  subscript data "tasks" ;;;
  ret tt.

(** [except (json.JSONDecodeError, FileNotFoundError, KeyError)] *)
Definition handled (e : exn) : bool :=
  match e with
  | JSONDecodeError | FileNotFoundError | KeyError _ => true
  | _ => false
  end.

Definition initialize : M backing_file unit :=
  λ f, match try_body f with
       | (Raises e, f') =>
           if handled e then (Returns tt, Holds empty_json)
           else (Raises e, f')
       | finished => finished
       end.

(** [list(x)] for a JSON value [x]: the keys of an object, the items of an
    array, the characters of a string. *)
Definition py_list {S} (x : json) : M S (list json) :=
  match x with
  | JObj members => ret (JStr <$> dict_keys members)
  | JArr items => ret items
  | JStr s => ret ((λ c, JStr (String c EmptyString)) <$> list_ascii_of_string s)
  | _ => raise TypeError
  end.

Definition load_groups : M backing_file (list json) :=
  json_data <- load ;;
  gs <- subscript json_data "groups" ;;
  py_list gs.


(** The files the handler of [initialize] is written for: a missing file,
    text that is not JSON, and a JSON object without one of the three
    keys. *)
Definition has_key (key : string) (members : list (string * json)) : bool :=
  bool_decide (is_Some (dict_get key members)).


End Init.

(** ** What [json.dump] writes for a document

    The members of [settings] and [tasks] come in the order of the finite
    map, not in insertion order. *)

Definition json_of_option (o : option string) : json :=
  match o with
  | Some s => JStr s
  | None => JNull
  end.

Definition json_of_task (task_data : TaskData.t) : json :=
  JObj [("task_name", JStr (TaskData.task_name task_data));
        ("button_text", json_of_option (TaskData.button_text task_data));
        ("url", JArr (JStr <$> TaskData.url task_data));
        ("file_path", json_of_option (TaskData.file_path task_data));
        ("directory_path", json_of_option (TaskData.directory_path task_data))].

Definition json_of_group (group_data : GroupData.t) : json :=
  JObj [("group_name", JStr (GroupData.group_name group_data));
        ("group_tasks", JArr (JStr <$> GroupData.group_tasks group_data))].

Definition json_of_document (d : document) : json :=
  JObj [("settings", JObj (map_to_list (settings d)));
        ("groups", JObj (prod_map id json_of_group <$> groups d));
        ("tasks", JObj (prod_map id json_of_task <$> map_to_list (tasks d)))].

(** ** The remaining operations of the module *)

(** [[f(x) for x in xs]] *)
Fixpoint map_each {S A B} (xs : list A) (f : A → M S B) : M S (list B) :=
  match xs with
  | [] => ret []
  | x :: xs' => y <- f x ;; ys <- map_each xs' f ;; ret (y :: ys)
  end.

(** [GroupClass.get_tasks] *)
Definition GroupClass_get_tasks (requests_get : string → option Response)
    (self : GroupClass.obj) : M document (list TaskClass.obj) :=
  map_each (GroupClass.group_tasks self) (get_task_by_id requests_get).

Definition load_groups : M document (list string) :=
  json_data <- json_load ;;
  ret (dict_keys (groups json_data)).

(** [{k: original[k] for k in new_order}]: the keys are read in the given
    order, a key that is missing in [original] raises [KeyError], and a key
    met again keeps the position it has in [built]. *)
Fixpoint reorder_build {S V} (original : list (string * V))
    (new_order : list string) (built : list (string * V))
  : M S (list (string * V)) :=
  match new_order with
  | [] => ret built
  | k :: rest =>
      match dict_get k original with
      | None => raise (KeyError k)
      | Some v => reorder_build original rest (dict_update k v built)
      end
  end.

Definition reorder_groups (new_order : list string) : M document unit :=
  json_data <- json_load ;;
  let original_groups_dict := groups json_data in
  groups' <- reorder_build original_groups_dict new_order [] ;;
  json_dump (set_groups json_data groups').

(** [reorder_items] reads the key ["items"], which is not one of the three
    keys of a document, so it is embedded over the JSON value the file
    holds. *)
Definition dump_json (json_data : json) : M Init.backing_file unit :=
  λ _, (Returns tt, Init.Holds json_data).

(** [data[key] = value] for a string [key] *)
Definition set_item {S} (data : json) (key : string) (value : json)
  : M S json :=
  match data with
  | JObj members => ret (JObj (dict_update key value members))
  | _ => raise TypeError
  end.

(** [{k: original[k] for k in new_order}] for a JSON value [original] *)
Fixpoint reorder_build_json {S} (original : json) (new_order : list string)
    (built : list (string * json)) : M S (list (string * json)) :=
  match new_order with
  | [] => ret built
  | k :: rest =>
      v <- Init.subscript original k ;;
      reorder_build_json original rest (dict_update k v built)
  end.

Definition reorder_items (new_order : list string) : M Init.backing_file unit :=
  json_data <- Init.load ;;
  original_items_dict <- Init.subscript json_data "items" ;;
  items' <- reorder_build_json original_items_dict new_order [] ;;
  json_data' <- set_item json_data "items" (JObj items') ;;
  dump_json json_data'.

(** The object and the save file agree: the record stored under the id of
    the group holds the name and the member list of the object. *)
Definition in_sync (self : GroupClass.obj) (d : document) : Prop :=
  dict_get (GroupClass.group_id self) (groups d)
  = Some (GroupData.mk (GroupClass._group_name self)
            (GroupClass.group_tasks self)).

(** A group object as [get_group_by_id] builds it from a stored record. *)
Definition group_of_record (group_id : string) (group_data : GroupData.t)
  : GroupClass.obj :=
  GroupClass.mk group_id (GroupData.group_name group_data)
    (GroupData.group_tasks group_data) None.

(** A task object as [get_task_by_id] builds it from a stored record. *)
Definition task_of_record (task_id group_id : string) (task_data : TaskData.t)
  : TaskClass.obj :=
  TaskClass.mk task_id group_id (TaskData.task_name task_data)
    (TaskData.button_text task_data) (TaskData.url task_data)
    (TaskData.file_path task_data) (TaskData.directory_path task_data).

(** No group of the list has [task_id] as a member. *)
Definition unlisted (task_id : string) (gs : list (string * GroupData.t))
  : Prop :=
  Forall (λ kv, task_id ∉ GroupData.group_tasks kv.2) gs.

(** The calls that change a group object, as data. *)
Inductive mutator : Type :=
  | CallSetGroupName (new_group_name : string)
  | CallInsert (index : Z) (new_task_id : string)
  | CallAppend (new_task_id : string)
  | CallRemove (task_id : string)
  | CallCreateTask (fuel : nat) (id_new : N) (task_name : string)
      (task_id : option string) (button_text : option string)
      (url : url_arg) (file_path directory_path : option string).

Definition call (requests_get : string → option Response) (m : mutator)
  : M (GroupClass.obj * document) unit :=
  match m with
  | CallSetGroupName new_group_name => GroupClass_set_group_name new_group_name
  | CallInsert index new_task_id => GroupClass_insert index new_task_id
  | CallAppend new_task_id => GroupClass_append new_task_id
  | CallRemove task_id => GroupClass_remove task_id
  | CallCreateTask fuel id_new task_name task_id button_text url
      file_path directory_path =>
      GroupClass_create_task requests_get fuel id_new task_name task_id
        button_text url file_path directory_path ;;;
      ret tt
  end.

(** ** Ids in use and ids tried *)

(** The ids in use: the keys of [groups] and of [tasks]. *)
Definition used_ids (d : document) : list string :=
  dict_keys (groups d) ++ (map_to_list (tasks d)).*1.

(** The ids the loop of the constructors tries, in order: the stem, then the
    stem with the suffixes [-1], [-2], ... *)
Definition candidate (stem : string) (j : nat) : string :=
  match j with
  | 0 => stem
  | S _ => stem +:+ "-" +:+ pretty (N.of_nat j)
  end.

(** ** Places a task is listed in *)

(** How often [task_id] occurs in a member list. *)
Definition occurrences (task_id : string) (xs : list string) : nat :=
  length (filter (λ x, task_id = x) xs).

(** How often [task_id] occurs in the member lists of all groups. *)
Definition listed (task_id : string) (gs : list (string * GroupData.t)) : nat :=
  sum_list ((λ kv, occurrences task_id (GroupData.group_tasks kv.2)) <$> gs).

(** ** Inputs of the examples *)

(** A network on which every request fails. *)
Definition no_network : string → option Response := λ _, None.

(** A network on which [http://good.example] answers without a redirect and
    every other request fails. *)
Definition one_site_network : string → option Response :=
  λ u, if decide (u = "http://good.example")
       then Some {| resp_url := u; history_is_redirect := [] |}
       else None.

Definition task_open : TaskData.t := TaskData.mk "Open" None [] None None.

(** One group [G_1] owning the one task [T_1]. *)
Definition doc_one : document :=
  Document ∅ [("G_1", GroupData.mk "Web" ["T_1"])] {["T_1" := task_open]}.

Definition group_one : GroupClass.obj := GroupClass.mk "G_1" "Web" ["T_1"] None.

(** * Properties *)

(** ** Strings and lists *)

Example str_split_ex :
  str_split (str_replace ","%char " "%char "a.com,b.com  c.com ") = ["a.com"; "b.com"; "c.com"].
Proof. reflexivity. Qed.

Example list_insert_at_ex :
  list_insert_at 1 "x" ["a"; "b"] = ["a"; "x"; "b"]
  ∧ list_insert_at (-1) "x" ["a"; "b"] = ["a"; "x"; "b"]
  ∧ list_insert_at 7 "x" ["a"; "b"] = ["a"; "b"; "x"]
  ∧ list_insert_at (-7) "x" ["a"; "b"] = ["x"; "a"; "b"].
Proof. repeat split; reflexivity. Qed.

(** ** Ordered dictionaries *)

Section odict_facts.
Context {V : Type}.
Implicit Types (d : list (string * V)) (k : string) (v : V).

Lemma dict_update_same k v d : dict_get k d = Some v → dict_update k v d = d.
Proof.
  induction d as [|[k' v'] d IH]; simpl; [done|].
  case_decide; intros Hget; simplify_eq; [done|].
  by rewrite IH.
Qed.

Lemma dict_get_update_eq k v d : dict_get k (dict_update k v d) = Some v.
Proof.
  induction d as [|[k' v'] d IH]; simpl.
  - by rewrite decide_True.
  - case_decide; simpl; [by rewrite decide_True|by rewrite decide_False].
Qed.

Lemma dict_get_Some_mem k v d : dict_get k d = Some v → k ∈ dict_keys d.
Proof.
  induction d as [|[k' v'] d IH]; simpl; [done|].
  case_decide; intros Hget; simplify_eq; [left|right; by apply IH].
Qed.

Lemma dict_keys_length d : length (dict_keys d) = length d.
Proof. apply length_fmap. Qed.
End odict_facts.

(** ** The monad *)

Ltac run :=
  repeat (progress (unfold bind, ret, raise, json_load, json_dump, get_self,
                      put_self, on_file, call_on, save_self; simpl)).

Lemma document_eta d : Document (settings d) (groups d) (tasks d) = d.
Proof. by destruct d. Qed.

Section frames.
Variable requests_get : string → option Response.

Lemma is_id_used_frame _id d : (is_id_used _id d).2 = d.
Proof. done. Qed.

Lemma save_task_groups self d :
  TaskClass_save_task self d
  = (Returns tt,
     set_tasks d (<[TaskClass.task_id self := TaskClass_get_task_data self]>
                    (tasks d))).
Proof. done. Qed.

Lemma save_group_run self d :
  GroupClass_save_group self d
  = (Returns tt,
     set_groups d
       (dict_update (GroupClass.group_id self)
          (GroupData.mk (GroupClass._group_name self)
             (GroupClass.group_tasks self)) (groups d))).
Proof. done. Qed.

Lemma get_group_id_of_task_frame task_id d :
  (get_group_id_of_task task_id d).2 = d.
Proof.
  unfold get_group_id_of_task. run.
  by destruct (list_find _ _) as [[? [? ?]]|].
Qed.

(** Rehydrating a task writes back the record that was read. *)
Lemma get_task_by_id_frame task_id d :
  (get_task_by_id requests_get task_id d).2 = d.
Proof.
  unfold get_task_by_id, TaskClass_init. run.
  destruct (tasks d !! task_id) as [task_data|] eqn:Hget; [|done].
  pose proof (get_group_id_of_task_frame task_id d) as Hframe.
  destruct (get_group_id_of_task task_id d) as [[group_id|e] d']; simpl in *;
    subst d'; [|done].
  unfold TaskClass_save_task, TaskClass_get_task_data. run.
  unfold set_tasks. destruct task_data; simpl.
  rewrite insert_id; [apply document_eta|done].
Qed.

(** Rehydrating a group writes back the record that was read. *)
Lemma get_group_by_id_run group_id d group_data :
  dict_get group_id (groups d) = Some group_data →
  get_group_by_id group_id d
  = (Returns (GroupClass.mk group_id (GroupData.group_name group_data)
                (GroupData.group_tasks group_data) None), d).
Proof.
  intros Hget. unfold get_group_by_id, GroupClass_init. run. rewrite Hget.
  unfold GroupClass_save_group, GroupClass_group_name. run.
  assert (match GroupData.group_tasks group_data with
          | [] => []
          | _ :: _ => GroupData.group_tasks group_data
          end = GroupData.group_tasks group_data) as ->
    by by destruct (GroupData.group_tasks group_data).
  unfold set_groups. destruct group_data; simpl in *.
  rewrite dict_update_same; [by rewrite document_eta|done].
Qed.

Lemma get_group_by_id_frame group_id d :
  (get_group_by_id group_id d).2 = d.
Proof.
  destruct (dict_get group_id (groups d)) as [group_data|] eqn:Hget.
  - by erewrite get_group_by_id_run.
  - unfold get_group_by_id. run. by rewrite Hget.
Qed.
End frames.

(** ** Lookups leave the document as it is *)

(** C10: [get_task_by_id] and [get_group_by_id] leave the document unchanged,
    for every id (present or not): the constructor they run writes back the
    record that was read, so [settings], [groups] and [tasks] are the same
    before and after. *)
Theorem lookups_leave_document_unchanged
    (requests_get : string → option Response) (_id : string) (d : document) :
  (get_task_by_id requests_get _id d).2 = d
  ∧ (get_group_by_id _id d).2 = d.
Proof.
  split; [apply get_task_by_id_frame|apply get_group_by_id_frame].
Qed.

(** A task that is stored and listed in a group comes back with the fields of
    its record. *)
Lemma get_task_by_id_run requests_get task_id d task_data group_id group_data i :
  tasks d !! task_id = Some task_data →
  list_find (λ kv, task_id ∈ GroupData.group_tasks kv.2) (groups d)
  = Some (i, (group_id, group_data)) →
  get_task_by_id requests_get task_id d
  = (Returns (TaskClass.mk task_id group_id (TaskData.task_name task_data)
                (TaskData.button_text task_data) (TaskData.url task_data)
                (TaskData.file_path task_data)
                (TaskData.directory_path task_data)), d).
Proof.
  intros Hget Hfind.
  pose proof (get_task_by_id_frame requests_get task_id d) as Hframe.
  revert Hframe. unfold get_task_by_id, get_group_id_of_task, TaskClass_init.
  run. rewrite Hget, Hfind. run. unfold TaskClass_save_task. run.
  by intros ->.
Qed.

(** ** Settings *)

(** C6: [remove_setting] raises [NotFound] whatever the settings hold; when
    the key was present the document written before the error has the key
    deleted, and when it was absent the document is untouched.  In both cases
    the key is absent afterwards. *)
Theorem remove_setting_always_raises (name : string) (d : document) :
  remove_setting name d
  = (Raises (NotFound name),
     if bool_decide (is_Some (settings d !! name))
     then set_settings d (delete name (settings d))
     else d)
  ∧ settings (remove_setting name d).2 !! name = None
  ∧ groups (remove_setting name d).2 = groups d
  ∧ tasks (remove_setting name d).2 = tasks d.
Proof.
  unfold remove_setting. run.
  case_bool_decide as Hin; run; repeat split; try done.
  - apply lookup_delete_eq.
  - by apply eq_None_not_Some.
Qed.

(** ** Membership mutators *)



(** ** Iterating a group *)

Section iteration.
Implicit Types (self : GroupClass.obj).

Lemma set_i_set_i self m n :
  GroupClass.set_i (GroupClass.set_i self m) n = GroupClass.set_i self n.
Proof. done. Qed.

(** From position [k] on, the loop yields the members at positions
    [k], ..., [n - 2] and leaves the position at [max k (n - 1)]. *)
Lemma consume_from self fuel k yielded :
  let n := length (GroupClass.group_tasks self) in
  n - 1 - k < fuel →
  consume fuel yielded (GroupClass.set_i self k)
  = (Returns (yielded ++ take (n - 1 - k) (drop k (GroupClass.group_tasks self))),
     GroupClass.set_i self (k `max` (n - 1))).
Proof.
  intros n. revert k yielded.
  induction fuel as [|fuel IH]; intros k yielded Hfuel; [lia|].
  simpl. unfold GroupClass_next. simpl. fold n.
  destruct (Z.ltb_spec (Z.of_nat k) (Z.of_nat n - 1)) as [Hlt|Hge].
  - destruct (lookup_lt_is_Some_2 (GroupClass.group_tasks self) k)
      as [task_id Hk]; [fold n; lia|].
    rewrite Hk, set_i_set_i, IH by lia.
    replace (n - 1 - k) with (S (n - 1 - (k + 1))) by lia.
    rewrite (drop_S _ _ _ Hk). simpl.
    rewrite <-(assoc_L (++)). simpl.
    replace (S k) with (k + 1) by lia.
    do 2 f_equal. lia.
  - replace (n - 1 - k) with 0 by lia. rewrite take_0, (right_id_L [] (++)).
    do 2 f_equal. lia.
Qed.
End iteration.

Lemma GroupClass_iterate_run (self : GroupClass.obj) (fuel : nat) :
  length (GroupClass.group_tasks self) - 1 < fuel →
  GroupClass_iterate fuel self
  = (Returns (take (length (GroupClass.group_tasks self) - 1)
                (GroupClass.group_tasks self)),
     GroupClass.set_i self (length (GroupClass.group_tasks self) - 1)).
Proof.
  intros Hfuel. unfold GroupClass_iterate, GroupClass_iter, bind.
  rewrite consume_from by lia. simpl. by rewrite Nat.sub_0_r, drop_0.
Qed.

(** An empty group yields nothing. *)
Lemma GroupClass_iterate_empty (self : GroupClass.obj) (fuel : nat) :
  GroupClass.group_tasks self = [] →
  (GroupClass_iterate (S fuel) self).1 = Returns [].
Proof.
  intros Hnil. rewrite GroupClass_iterate_run by (rewrite Hnil; simpl; lia).
  by rewrite Hnil.
Qed.

(** C7: iterating a group whose member list has length [n] yields the first
    [n - 1] member ids in list order and then stops, one element short of the
    list; for an empty member list that is nothing ([take 0]). *)
Theorem iteration_stops_one_short (self : GroupClass.obj) (fuel : nat) :
  length (GroupClass.group_tasks self) ≤ fuel →
  0 < fuel →
  (GroupClass_iterate fuel self).1
  = Returns (take (length (GroupClass.group_tasks self) - 1)
               (GroupClass.group_tasks self)).
Proof.
  intros Hfuel Hpos. rewrite GroupClass_iterate_run by lia. done.
Qed.

Lemma iteration_stops_one_short_witness :
  (GroupClass_iterate 3 (GroupClass.mk "G_1" "Web" ["a"; "b"; "c"] None)).1
  = Returns ["a"; "b"].
Proof.
  apply (iteration_stops_one_short
           (GroupClass.mk "G_1" "Web" ["a"; "b"; "c"] None) 3); simpl; lia.
Defined.

(** ** Generated ids *)

Section generated_ids.
Implicit Types (d : document) (stem : string).

Lemma used_ids_length d :
  length (used_ids d) = length (groups d) + size (tasks d).
Proof.
  unfold used_ids.
  by rewrite length_app, dict_keys_length, length_fmap, length_map_to_list.
Qed.

Lemma is_id_used_spec _id d :
  is_id_used _id d = (Returns (bool_decide (_id ∈ used_ids d)), d).
Proof.
  unfold is_id_used, dict_mem, used_ids. run. do 2 f_equal.
  apply eq_bool_prop_intro.
  rewrite orb_True, !bool_decide_spec, elem_of_app, list_elem_of_fmap.
  apply or_iff_compat_l. split.
  - intros [task_data Hget]. exists (_id, task_data).
    by rewrite elem_of_map_to_list.
  - intros [[k task_data] [-> Hin]]. exists task_data.
    by apply elem_of_map_to_list.
Qed.

Lemma is_id_used_false _id d :
  (_id ∉ used_ids d) ↔
  (_id ∉ dict_keys (groups d)) ∧ tasks d !! _id = None.
Proof.
  unfold used_ids. rewrite not_elem_of_app, list_elem_of_fmap.
  apply and_iff_compat_l. rewrite eq_None_not_Some. split.
  - intros Hno [task_data Hget]. apply Hno. exists (_id, task_data).
    by rewrite elem_of_map_to_list.
  - intros Hno [[k task_data] [-> Hin]]. apply Hno. exists task_data.
    by apply elem_of_map_to_list.
Qed.

Lemma string_app_length (s1 s2 : string) :
  String.length (s1 +:+ s2) = String.length s1 + String.length s2.
Proof. induction s1; simpl; [done|]. by rewrite IHs1. Qed.

Global Instance candidate_inj stem : Inj (=) (=) (candidate stem).
Proof.
  intros [|j] [|j'] Heq; simpl in Heq; [done| | |].
  - apply (f_equal String.length) in Heq.
    rewrite string_app_length in Heq. simpl in Heq. lia.
  - apply (f_equal String.length) in Heq.
    rewrite string_app_length in Heq. simpl in Heq. lia.
  - apply (inj (String.app stem)) in Heq.
    apply (inj (String.app "-")) in Heq.
    apply (inj pretty) in Heq. lia.
Qed.

(** No more candidates can be in use than there are ids in use. *)
Lemma candidates_used_bound stem d j :
  (∀ j', j' < j → candidate stem j' ∈ used_ids d) → j ≤ length (used_ids d).
Proof.
  intros Hused.
  rewrite <-(length_seq j 0), <-(length_fmap (candidate stem)).
  apply submseteq_length, NoDup_submseteq.
  - apply (NoDup_fmap_2 _), NoDup_seq.
  - intros x (j' & -> & Hj'%elem_of_seq)%list_elem_of_fmap. apply Hused. lia.
Qed.

(** The loop, started at candidate [j] with all earlier candidates in use,
    returns the first candidate that is not in use, as soon as the fuel
    covers the ids in use. *)
Lemma generate_id_loop_run stem d fuel j :
  (∀ j', j' < j → candidate stem j' ∈ used_ids d) →
  length (used_ids d) < fuel + j →
  ∃ k, j ≤ k
    ∧ generate_id_loop fuel stem (candidate stem j) (N.of_nat (S j)) d
      = (Returns (candidate stem k), d)
    ∧ candidate stem k ∉ used_ids d.
Proof.
  revert j. induction fuel as [|fuel IH]; intros j Hused Hfuel.
  - apply candidates_used_bound in Hused. lia.
  - simpl. unfold bind at 1. rewrite is_id_used_spec.
    case_bool_decide as Hj.
    + destruct (IH (S j)) as (k & Hk & Hrun & Hfree); [|lia|].
      { intros j' Hj'. destruct (decide (j' = j)) as [->|]; [done|].
        apply Hused. lia. }
      exists k. split; [lia|]. split; [|done].
      rewrite <-Hrun. simpl. do 2 f_equal. lia.
    + exists j. done.
Qed.

Lemma generate_id_run fuel prefix id_self d :
  length (groups d) + size (tasks d) < fuel →
  ∃ _id, generate_id fuel prefix id_self d = (Returns _id, d)
    ∧ (_id ∉ dict_keys (groups d)) ∧ tasks d !! _id = None.
Proof.
  intros Hfuel. unfold generate_id.
  destruct (generate_id_loop_run (prefix +:+ pretty id_self) d fuel 0)
    as (k & _ & Hrun & Hfree); [lia|rewrite used_ids_length; lia|].
  exists (candidate (prefix +:+ pretty id_self) k).
  split; [done|]. by apply is_id_used_false.
Qed.
End generated_ids.

(** The loop at work: with [T_7] and [T_7-1] taken, the third candidate is
    the id. *)
Example generate_id_collisions :
  generate_id 3 "T_" 7
    (Document ∅ [("T_7-1", GroupData.mk "Web" [])] {["T_7" := task_open]})
  = (Returns "T_7-2",
     Document ∅ [("T_7-1", GroupData.mk "Web" [])] {["T_7" := task_open]}).
Proof. vm_compute. reflexivity. Qed.

(** C9: a task or a group constructed without an explicit id gets one: the
    loop ends once its fuel exceeds the number of ids in the document, and the
    id it ends with is a key of neither [groups] nor [tasks] of the document
    the constructor started from. *)
Theorem generated_ids_are_fresh
    (requests_get : string → option Response) (d : document) (fuel : nat)
    (id_self : N) (group_id task_name : string) (button_text : option string)
    (url : url_arg) (file_path directory_path : option string)
    (group_name : string) (group_tasks : option (list string)) :
  length (groups d) + size (tasks d) < fuel →
  (∃ task d',
      TaskClass_init requests_get fuel id_self group_id task_name None
        button_text url file_path directory_path d = (Returns task, d')
      ∧ (TaskClass.task_id task ∉ dict_keys (groups d))
      ∧ tasks d !! TaskClass.task_id task = None)
  ∧ (∃ group d',
        GroupClass_init fuel id_self group_name None group_tasks d
        = (Returns group, d')
        ∧ (GroupClass.group_id group ∉ dict_keys (groups d))
        ∧ tasks d !! GroupClass.group_id group = None).
Proof.
  intros Hfuel. split.
  - destruct (generate_id_run fuel "T_" id_self d Hfuel)
      as (_id & Hrun & Hgroups & Htasks).
    unfold TaskClass_init. unfold bind at 1. rewrite Hrun. run.
    eexists _, _. split; [reflexivity|done].
  - destruct (generate_id_run fuel "G_" id_self d Hfuel)
      as (_id & Hrun & Hgroups & Htasks).
    unfold GroupClass_init. unfold bind at 1. rewrite Hrun. run.
    eexists _, _. split; [reflexivity|done].
Qed.

Lemma generated_ids_are_fresh_witness :
  (∃ task d',
      TaskClass_init no_network 3 7 "G_1" "Open" None None UrlNone None None
        doc_one = (Returns task, d')
      ∧ (TaskClass.task_id task ∉ dict_keys (groups doc_one))
      ∧ tasks doc_one !! TaskClass.task_id task = None)
  ∧ (∃ group d',
        GroupClass_init 3 7 "Files" None None doc_one = (Returns group, d')
        ∧ (GroupClass.group_id group ∉ dict_keys (groups doc_one))
        ∧ tasks doc_one !! GroupClass.group_id group = None).
Proof.
  apply (generated_ids_are_fresh no_network doc_one 3 7 "G_1" "Open" None
           UrlNone None None "Files" None).
  vm_compute. lia.
Defined.

(** ** URL normalization *)

Section url_facts.
Variable requests_get : string → option Response.

(** With [seen] the part of the list before [index] and [rest] the part from
    [index] on, the loop leaves [seen] alone and scans [rest]. *)
Lemma url_loop_scan (fuel : nat) (seen rest : list string) :
  length rest ≤ fuel →
  url_loop requests_get fuel (length seen) (seen ++ rest)
  = seen ++ url_scan requests_get rest.
Proof.
  revert seen rest. induction fuel as [|fuel IH]; intros seen rest Hfuel.
  - destruct rest; simpl in *; [done|lia].
  - destruct rest as [|u rest]; simpl.
    + by rewrite lookup_ge_None_2 by (rewrite length_app; simpl; lia).
    + rewrite list_lookup_middle by done.
      destruct (verify_url_root requests_get u) as [fixed_url|].
      * rewrite insert_app_r_alt, Nat.sub_diag by done. simpl.
        rewrite (cons_middle fixed_url seen rest), (assoc_L (++)).
        replace (S (length seen)) with (length (seen ++ [fixed_url]))
          by (rewrite length_app; simpl; lia).
        rewrite IH by (simpl in Hfuel; lia).
        by rewrite <-(assoc_L (++)).
      * rewrite delete_middle.
        destruct rest as [|v rest].
        { rewrite (right_id_L [] (++)).
          destruct fuel; simpl; [done|].
          by rewrite lookup_ge_None_2 by lia. }
        rewrite (cons_middle v seen rest), (assoc_L (++)).
        replace (S (length seen)) with (length (seen ++ [v]))
          by (rewrite length_app; simpl; lia).
        rewrite IH by (simpl in Hfuel; lia).
        by rewrite <-(assoc_L (++)).
Qed.

(** What the setter stores for a string. *)
Lemma url_setter_scan (new_url : string) :
  url_setter requests_get (UrlStr new_url)
  = url_scan requests_get (str_split (str_replace ","%char " "%char new_url)).
Proof. unfold url_setter. by apply (url_loop_scan _ []). Qed.

(** As long as no candidate is dropped the setter does what the
    specification describes. *)
Lemma url_scan_all_kept (candidates : list string) :
  Forall (λ u, is_Some (verify_url_root requests_get u)) candidates →
  url_scan requests_get candidates = url_checked requests_get candidates.
Proof.
  unfold url_checked.
  induction 1 as [|u rest [fixed_url Hu] _ IH]; simpl; [done|].
  by rewrite Hu, IH.
Qed.
End url_facts.

(** C4, at a failing input.  On a network where only [good.example] answers,
    the string names two dead hosts and the live one.  The first dead host is
    dropped, the second one is never checked and is stored as it was typed;
    checking every candidate would store the live host only. *)
Theorem url_setter_skips_after_a_drop :
  url_setter one_site_network (UrlStr "bad.invalid,worse.invalid good.example")
  = ["worse.invalid"; "http://good.example"]
  ∧ url_checked one_site_network
      (str_split (str_replace ","%char " "%char
                    "bad.invalid,worse.invalid good.example"))
    = ["http://good.example"].
Proof. split; vm_compute; reflexivity. Qed.

(** With every request failing, the last of two candidates survives. *)
Example url_setter_keeps_a_dead_host :
  url_setter no_network (UrlStr "a.invalid b.invalid") = ["b.invalid"]
  ∧ url_checked no_network ["a.invalid"; "b.invalid"] = [].
Proof. split; reflexivity. Qed.

(** ** The member list stays free of duplicates, except through
       [create_task] *)

Section member_list.
Variable requests_get : string → option Response.
Implicit Types (self : GroupClass.obj) (d : document).

Lemma list_insert_at_Permutation (index : Z) (x : string) (xs : list string) :
  list_insert_at index x xs ≡ₚ x :: xs.
Proof.
  unfold list_insert_at.
  rewrite <-Permutation_middle. by rewrite take_drop.
Qed.

(** [insert] keeps a duplicate-free member list duplicate-free, whether it
    raises or not. *)
Lemma GroupClass_insert_NoDup index new_task_id self d :
  NoDup (GroupClass.group_tasks self) →
  NoDup (GroupClass.group_tasks
           (GroupClass_insert index new_task_id (self, d)).2.1).
Proof.
  intros Hnodup. unfold GroupClass_insert. run.
  case_bool_decide as Hin; run; [done|].
  rewrite list_insert_at_Permutation. by constructor.
Qed.

(** So does [append]. *)
Lemma GroupClass_append_NoDup new_task_id self d :
  NoDup (GroupClass.group_tasks self) →
  NoDup (GroupClass.group_tasks (GroupClass_append new_task_id (self, d)).2.1).
Proof.
  intros Hnodup. unfold GroupClass_append. run.
  case_bool_decide as Hin; run; [done|].
  rewrite <-Permutation_cons_append. by constructor.
Qed.

(** [create_task] with an explicit id: the task is stored and its id goes to
    the end of the member list, once, without any membership test. *)
Lemma GroupClass_create_task_given fuel id_new task_name task_id button_text
    url file_path directory_path self d :
  let new_task :=
    TaskClass.mk task_id (GroupClass.group_id self) task_name button_text
      (url_setter requests_get url) file_path directory_path in
  let self' :=
    GroupClass.set_group_tasks self (GroupClass.group_tasks self ++ [task_id]) in
  GroupClass_create_task requests_get fuel id_new task_name (Some task_id)
    button_text url file_path directory_path (self, d)
  = (Returns new_task,
     (self',
      set_groups
        (set_tasks d (<[task_id := TaskClass_get_task_data new_task]> (tasks d)))
        (dict_update (GroupClass.group_id self)
           (GroupData.mk (GroupClass._group_name self)
              (GroupClass.group_tasks self ++ [task_id]))
           (groups d)))).
Proof. done. Qed.

(** Whatever the id, a [create_task] that returns has appended the id of the
    new task to the member list, once. *)
Lemma GroupClass_create_task_appends fuel id_new task_name task_id button_text
    url file_path directory_path self d new_task self' d' :
  GroupClass_create_task requests_get fuel id_new task_name task_id
    button_text url file_path directory_path (self, d)
  = (Returns new_task, (self', d')) →
  GroupClass.group_tasks self'
  = GroupClass.group_tasks self ++ [TaskClass.task_id new_task].
Proof.
  unfold GroupClass_create_task, TaskClass_init. run.
  destruct task_id as [task_id|]; run.
  - by intros [= <- <- <-].
  - destruct (generate_id fuel "T_" id_new d) as [[_id|e] d1]; run; [|done].
    by intros [= <- <- <-].
Qed.

(** An id that is not yet a member keeps the list duplicate-free. *)
Lemma GroupClass_create_task_NoDup fuel id_new task_name task_id button_text
    url file_path directory_path self d new_task self' d' :
  GroupClass_create_task requests_get fuel id_new task_name task_id
    button_text url file_path directory_path (self, d)
  = (Returns new_task, (self', d')) →
  TaskClass.task_id new_task ∉ GroupClass.group_tasks self →
  NoDup (GroupClass.group_tasks self) →
  NoDup (GroupClass.group_tasks self').
Proof.
  intros Hrun Hnew Hnodup.
  rewrite (GroupClass_create_task_appends _ _ _ _ _ _ _ _ _ _ _ _ _ Hrun).
  rewrite <-Permutation_cons_append. by constructor.
Qed.
End member_list.

(** C3, at a failing input.  The group [G_1] has the single member [T_1];
    [create_task] with the explicit id [T_1] returns normally and leaves the
    member list [T_1, T_1], in the object and in the save file. *)
Theorem create_task_duplicates_a_member :
  NoDup (GroupClass.group_tasks group_one)
  ∧ ∃ new_task d',
      GroupClass_create_task no_network 0 0 "Again" (Some "T_1") None UrlNone
        None None (group_one, doc_one)
      = (Returns new_task,
         (GroupClass.mk "G_1" "Web" ["T_1"; "T_1"] None, d'))
      ∧ groups d' = [("G_1", GroupData.mk "Web" ["T_1"; "T_1"])]
      ∧ ¬ NoDup ["T_1"; "T_1"].
Proof.
  split; [apply (bool_decide_unpack _); by vm_compute|].
  eexists _, _. split; [reflexivity|]. split; [reflexivity|].
  apply (bool_decide_unpack _). by vm_compute.
Qed.

(** ** Deleting never removes a task record *)

Section deleting.
Variable requests_get : string → option Response.
Implicit Types (self : GroupClass.obj) (d : document) (task_id : string).

Lemma GroupClass_remove_tasks task_id self d :
  tasks (GroupClass_remove task_id (self, d)).2.2 = tasks d.
Proof. unfold GroupClass_remove. run. by case_bool_decide. Qed.

(** Nothing reachable from [delete_task_by_id] deletes a key of [tasks]:
    whatever the fuel, the [tasks] mapping is the same afterwards. *)
Lemma delete_task_by_id_tasks fuel task_id d :
  tasks (delete_task_by_id requests_get fuel task_id d).2 = tasks d.
Proof.
  revert task_id d. induction fuel as [|fuel IH]; intros task_id d; [done|].
  simpl. unfold bind at 1.
  pose proof (get_task_by_id_frame requests_get task_id d) as Htask.
  destruct (get_task_by_id requests_get task_id d) as [[task|e] d1];
    simpl in Htask; subst d1; [|done].
  unfold TaskClass_delete_task_with, bind at 1.
  pose proof (get_group_by_id_frame (TaskClass.group_id task) d) as Hgroup.
  destruct (get_group_by_id (TaskClass.group_id task) d) as [[group|e] d1];
    simpl in Hgroup; subst d1; [|done].
  unfold call_on, GroupClass_delete_task_with, bind at 1, get_self. simpl.
  case_bool_decide as Hin; [done|].
  unfold bind at 1.
  pose proof (GroupClass_remove_tasks (TaskClass.task_id task) group d)
    as Hremove.
  destruct (GroupClass_remove (TaskClass.task_id task) (group, d))
    as [[[]|e] [group' d1]]; simpl in Hremove; [|done].
  unfold on_file. simpl.
  specialize (IH (TaskClass.task_id task) d1).
  destruct (delete_task_by_id requests_get fuel (TaskClass.task_id task) d1)
    as [r d2]; simpl in *. congruence.
Qed.

(** And it never returns: every path through the three functions ends in a
    [raise] or in the next call of [delete_task_by_id]. *)
Lemma delete_task_by_id_raises fuel task_id d :
  ∃ e, (delete_task_by_id requests_get fuel task_id d).1 = Raises e.
Proof.
  revert task_id d.
  induction fuel as [|fuel IH]; intros task_id d; [by eexists|].
  simpl. unfold bind at 1.
  destruct (get_task_by_id requests_get task_id d) as [[task|e] d1];
    [|by eexists].
  unfold TaskClass_delete_task_with, bind at 1.
  destruct (get_group_by_id (TaskClass.group_id task) d1) as [[group|e] d2];
    [|by eexists].
  unfold call_on, GroupClass_delete_task_with, bind at 1, get_self. simpl.
  case_bool_decide as Hin; [by eexists|].
  unfold bind at 1.
  destruct (GroupClass_remove (TaskClass.task_id task) (group, d2))
    as [[[]|e] [group' d3]]; [|by eexists].
  unfold on_file. simpl.
  destruct (IH (TaskClass.task_id task) d3) as [e He].
  destruct (delete_task_by_id requests_get fuel (TaskClass.task_id task) d3)
    as [r d4]; simpl in *. subst r. by eexists.
Qed.

Lemma GroupClass_delete_task_tasks fuel task_id self d :
  tasks (GroupClass_delete_task requests_get fuel task_id (self, d)).2.2
  = tasks d.
Proof.
  unfold GroupClass_delete_task, GroupClass_delete_task_with, bind at 1,
    get_self. simpl.
  case_bool_decide as Hin; [done|].
  unfold bind at 1.
  pose proof (GroupClass_remove_tasks task_id self d) as Hremove.
  destruct (GroupClass_remove task_id (self, d)) as [[[]|e] [self' d1]];
    simpl in Hremove; [|done].
  unfold on_file. simpl.
  pose proof (delete_task_by_id_tasks fuel task_id d1) as Hdelete.
  destruct (delete_task_by_id requests_get fuel task_id d1) as [r d2];
    simpl in *. congruence.
Qed.

(** [GroupClass.delete_task] never returns either. *)
Lemma GroupClass_delete_task_raises fuel task_id self d :
  ∃ e, (GroupClass_delete_task requests_get fuel task_id (self, d)).1
       = Raises e.
Proof.
  unfold GroupClass_delete_task, GroupClass_delete_task_with, bind at 1,
    get_self. simpl.
  case_bool_decide as Hin; [by eexists|].
  unfold bind at 1.
  destruct (GroupClass_remove task_id (self, d)) as [[[]|e] [self' d1]];
    [|by eexists].
  unfold on_file. simpl.
  destruct (delete_task_by_id_raises fuel task_id d1) as [e He].
  destruct (delete_task_by_id requests_get fuel task_id d1) as [r d2];
    simpl in *. subst r. by eexists.
Qed.

(** The first part of its contract holds: an id that is not a member is
    refused, with nothing changed. *)
Lemma GroupClass_delete_task_not_member fuel task_id self d :
  task_id ∉ GroupClass.group_tasks self →
  GroupClass_delete_task requests_get fuel task_id (self, d)
  = (Raises (TaskNotFoundInGroup (GroupClass_group_name self) task_id),
     (self, d)).
Proof.
  intros Hnotin. unfold GroupClass_delete_task, GroupClass_delete_task_with.
  run. by rewrite bool_decide_eq_true_2.
Qed.

Lemma TaskClass_delete_task_tasks fuel task d :
  tasks (TaskClass_delete_task requests_get fuel task d).2 = tasks d.
Proof.
  unfold TaskClass_delete_task, TaskClass_delete_task_with, bind at 1.
  pose proof (get_group_by_id_frame (TaskClass.group_id task) d) as Hgroup.
  destruct (get_group_by_id (TaskClass.group_id task) d) as [[group|e] d1];
    simpl in Hgroup; subst d1; [|done].
  unfold call_on.
  pose proof (GroupClass_delete_task_tasks fuel (TaskClass.task_id task)
                group d) as Hdelete.
  unfold GroupClass_delete_task in Hdelete.
  destruct (GroupClass_delete_task_with _ _ _) as [r [group' d1]]. done.
Qed.

Lemma for_each_tasks {A} (xs : list A) (body : A → M document unit) d :
  (∀ x d1, tasks (body x d1).2 = tasks d1) →
  tasks (for_each xs body d).2 = tasks d.
Proof.
  intros Hbody. revert d. induction xs as [|x xs IH]; intros d; [done|].
  simpl. unfold bind. specialize (Hbody x d).
  destruct (body x d) as [[[]|e] d1]; simpl in *; [|done].
  by rewrite IH.
Qed.

(** Deleting a group, whatever the group and the document, leaves every task
    record where it was. *)
Lemma delete_group_by_id_tasks fuel group_id d :
  tasks (delete_group_by_id requests_get fuel group_id d).2 = tasks d.
Proof.
  unfold delete_group_by_id, bind at 1.
  pose proof (get_group_by_id_frame group_id d) as Hgroup.
  destruct (get_group_by_id group_id d) as [[group|e] d1];
    simpl in Hgroup; subst d1; [|done].
  unfold GroupClass_delete_group_and_tasks. run.
  destruct (dict_pop _ _) as [groups'|]; [|done]. simpl.
  rewrite for_each_tasks; [done|].
  intros task d1. unfold bind.
  pose proof (get_task_by_id_frame requests_get task d1) as Htask.
  destruct (get_task_by_id requests_get task d1) as [[t|e] d2];
    simpl in Htask; subst d2; [|done].
  apply TaskClass_delete_task_tasks.
Qed.
End deleting.

(** ** The exception of [delete_task_by_id] is a real one *)

Section deleting_ends.
Variable requests_get : string → option Response.
Implicit Types (d : document) (task_id : string)
  (gs : list (string * GroupData.t)).

Lemma get_task_by_id_cases task_id d :
  get_task_by_id requests_get task_id d
  = match tasks d !! task_id with
    | None => (Raises (NotFoundInFile task_id), d)
    | Some task_data =>
        match list_find (λ kv, task_id ∈ GroupData.group_tasks kv.2)
                (groups d) with
        | None =>
            (Raises (NotFound ("Task with id '" +:+ task_id
                               +:+ "' not found in any groups.")), d)
        | Some (_, (group_id, _)) =>
            (Returns (TaskClass.mk task_id group_id
                        (TaskData.task_name task_data)
                        (TaskData.button_text task_data)
                        (TaskData.url task_data)
                        (TaskData.file_path task_data)
                        (TaskData.directory_path task_data)), d)
        end
    end.
Proof.
  destruct (tasks d !! task_id) as [task_data|] eqn:Hget.
  - destruct (list_find _ (groups d)) as [[i [group_id group_data]]|] eqn:Hfind.
    + by erewrite get_task_by_id_run.
    + unfold get_task_by_id, get_group_id_of_task. run.
      by rewrite Hget, Hfind.
  - unfold get_task_by_id. run. by rewrite Hget.
Qed.

Lemma get_group_by_id_cases group_id d :
  get_group_by_id group_id d
  = match dict_get group_id (groups d) with
    | None => (Raises (KeyError group_id), d)
    | Some group_data =>
        (Returns (GroupClass.mk group_id (GroupData.group_name group_data)
                    (GroupData.group_tasks group_data) None), d)
    end.
Proof.
  destruct (dict_get group_id (groups d)) as [group_data|] eqn:Hget.
  - by apply get_group_by_id_run.
  - unfold get_group_by_id. run. by rewrite Hget.
Qed.

Lemma occurrences_remove task_id (xs : list string) :
  task_id ∈ xs →
  S (occurrences task_id (list_remove task_id xs)) = occurrences task_id xs.
Proof.
  unfold occurrences.
  induction xs as [|y xs IH]; intros Hin; [by apply elem_of_nil in Hin|].
  simpl. rewrite filter_cons. destruct (decide (task_id = y)) as [->|Hne].
  - done.
  - rewrite filter_cons, decide_False by done.
    apply IH. by apply elem_of_cons in Hin as [?|?].
Qed.

(** Saving the group found under [group_id] with one occurrence of the task
    removed lowers the number of places the task is listed in by one. *)
Lemma listed_update_remove task_id group_id group_data name gs :
  dict_get group_id gs = Some group_data →
  task_id ∈ GroupData.group_tasks group_data →
  S (listed task_id
       (dict_update group_id
          (GroupData.mk name
             (list_remove task_id (GroupData.group_tasks group_data))) gs))
  = listed task_id gs.
Proof.
  intros Hget Hin. unfold listed.
  induction gs as [|[k v] gs IH]; simpl in *; [done|].
  case_decide; simplify_eq; simpl.
  - by rewrite <-(occurrences_remove task_id (GroupData.group_tasks group_data)).
  - specialize (IH Hget). unfold fmap in IH. lia.
Qed.

(** With more fuel than places the task is listed in, [delete_task_by_id]
    ends, and it ends in an exception of the program. *)
Lemma delete_task_by_id_ends fuel task_id d :
  listed task_id (groups d) < fuel →
  ∃ e, (delete_task_by_id requests_get fuel task_id d).1 = Raises e
       ∧ e ≠ OutOfFuel.
Proof.
  revert task_id d. induction fuel as [|fuel IH]; intros task_id d Hfuel; [lia|].
  simpl. unfold bind at 1. rewrite get_task_by_id_cases.
  destruct (tasks d !! task_id) as [task_data|]; [|by eexists].
  destruct (list_find _ (groups d)) as [[i [group_id group_data]]|];
    [|by eexists].
  unfold TaskClass_delete_task_with, bind at 1.
  rewrite get_group_by_id_cases. simpl.
  destruct (dict_get group_id (groups d)) as [found|] eqn:Hget; [|by eexists].
  unfold call_on, GroupClass_delete_task_with, GroupClass_remove. run.
  case_bool_decide as Hin; [by eexists|].
  rewrite bool_decide_eq_false_2 by (by intros Hnotin). simpl.
  destruct (IH task_id
              (set_groups d
                 (dict_update group_id
                    (GroupData.mk (GroupData.group_name found)
                       (list_remove task_id (GroupData.group_tasks found)))
                    (groups d)))) as (e & He & Hreal).
  { simpl.
    pose proof (listed_update_remove task_id group_id found
                  (GroupData.group_name found) (groups d) Hget Hin). lia. }
  destruct (delete_task_by_id _ _ _ _) as [r d']. simpl in *. subst r.
  by eexists.
Qed.
End deleting_ends.

(** ** Deleting a group *)

Section deleting_groups.
Variable requests_get : string → option Response.

Lemma TaskClass_delete_task_raises fuel task d :
  ∃ e, (TaskClass_delete_task requests_get fuel task d).1 = Raises e.
Proof.
  unfold TaskClass_delete_task, TaskClass_delete_task_with, bind at 1.
  destruct (get_group_by_id (TaskClass.group_id task) d) as [[group|e] d1];
    [|by eexists].
  unfold call_on.
  destruct (GroupClass_delete_task_raises requests_get fuel
              (TaskClass.task_id task) group d1) as [e He].
  unfold GroupClass_delete_task in He.
  destruct (GroupClass_delete_task_with _ _ _) as [r [group' d2]].
  simpl in *. subst r. by eexists.
Qed.

Lemma dict_pop_is_Some {V} (k : string) (v : V) (d : list (string * V)) :
  dict_get k d = Some v → is_Some (dict_pop k d).
Proof.
  induction d as [|[k' v'] d IH]; simpl; [done|].
  case_decide; [by eexists|]. intros Hget.
  destruct (IH Hget) as [d' ->]. by eexists.
Qed.

(** A group with a member is taken out of [groups], and then the cascade
    stops at the first member with an exception: [delete_group_by_id] does
    not return, and (by [delete_group_by_id_tasks]) no task record is gone. *)
Lemma delete_group_by_id_with_member fuel group_id d group_data :
  dict_get group_id (groups d) = Some group_data →
  GroupData.group_tasks group_data ≠ [] →
  ∃ e, (delete_group_by_id requests_get fuel group_id d).1 = Raises e.
Proof.
  intros Hget Hmember. unfold delete_group_by_id, bind at 1.
  rewrite get_group_by_id_cases, Hget.
  unfold GroupClass_delete_group_and_tasks. run.
  destruct (dict_pop_is_Some _ _ _ Hget) as [groups' ->]. simpl.
  destruct (GroupData.group_tasks group_data) as [|task rest]; [done|].
  simpl. unfold bind.
  destruct (get_task_by_id requests_get task _) as [[t|e] d1]; [|by eexists].
  destruct (TaskClass_delete_task_raises fuel t d1) as [e He].
  destruct (TaskClass_delete_task requests_get fuel t d1) as [r d2].
  simpl in *. subst r. by eexists.
Qed.
End deleting_groups.

(** C1, at a failing input.  The document holds the group [G_1] with the
    member [T_1] and the record of [T_1].  [delete_group_by_id] takes the
    group out, then fails with [NotFound] while rehydrating [T_1] (no group
    lists it any more); the record of [T_1] stays in [tasks], orphaned. *)
Theorem delete_group_leaves_orphans :
  delete_group_by_id no_network 3 "G_1" doc_one
  = (Raises (NotFound "Task with id 'T_1' not found in any groups."),
     Document ∅ [] {["T_1" := task_open]})
  ∧ tasks (delete_group_by_id no_network 3 "G_1" doc_one).2 !! "T_1"
    = Some task_open.
Proof. split; vm_compute; reflexivity. Qed.

(** C2, at a failing input.  [T_1] is a member of [G_1].
    [GroupClass.delete_task] takes it off the member list and saves the
    group, then fails with [NotFound] inside [delete_task_by_id]; the record
    of [T_1] stays in [tasks]. *)
Theorem delete_task_keeps_the_record :
  GroupClass_delete_task no_network 3 "T_1" (group_one, doc_one)
  = (Raises (NotFound "Task with id 'T_1' not found in any groups."),
     (GroupClass.mk "G_1" "Web" [] None,
      Document ∅ [("G_1", GroupData.mk "Web" [])] {["T_1" := task_open]}))
  ∧ tasks (GroupClass_delete_task no_network 3 "T_1" (group_one, doc_one)).2.2
    !! "T_1" = Some task_open.
Proof. split; vm_compute; reflexivity. Qed.

(** A task listed twice: the recursion goes round once more before it
    fails, and the record is still there. *)
Example delete_task_listed_twice :
  delete_task_by_id no_network 3 "T_1"
    (Document ∅ [("G_1", GroupData.mk "Web" ["T_1"]);
                 ("G_2", GroupData.mk "Files" ["T_1"])]
       {["T_1" := task_open]})
  = (Raises (NotFound "Task with id 'T_1' not found in any groups."),
     Document ∅ [("G_1", GroupData.mk "Web" []);
                 ("G_2", GroupData.mk "Files" [])]
       {["T_1" := task_open]}).
Proof. vm_compute. reflexivity. Qed.

(** ** Store initialization *)


(** A document with the three keys is left alone. *)
Lemma initialize_keeps_a_document (d : document) :
  Init.initialize (Init.Holds (json_of_document d))
  = (Returns tt, Init.Holds (json_of_document d)).
Proof. done. Qed.

(** Exceptions the handler does not name go through, and the file stays as it
    was: bytes that are not text, and JSON that is not an object. *)
Lemma initialize_lets_through :
  Init.initialize Init.Undecodable = (Raises UnicodeDecodeError, Init.Undecodable)
  ∧ Init.initialize (Init.Holds (JArr []))
    = (Raises TypeError, Init.Holds (JArr [])).
Proof. done. Qed.

(** A load operation does not repair anything by itself. *)
Lemma load_groups_missing :
  Init.load_groups Init.Missing = (Raises FileNotFoundError, Init.Missing).
Proof. done. Qed.




(** * More properties of the module *)

(** ** Settings *)

(** X1: a setting that has been applied is the one read back, whatever was
    stored under the name before; groups and tasks are not touched. *)
Theorem apply_settings_then_get_setting
    (name : string) (value : json) (d : document) :
  (apply_settings name value ;;; get_setting name) d
  = (Returns value, set_settings d (<[name := value]> (settings d))).
Proof.
  unfold apply_settings, get_setting. run. by rewrite lookup_insert_eq.
Qed.

(** X2: applying a setting does not change what is read under another
    name. *)
Theorem apply_settings_keeps_other_settings
    (name other : string) (value : json) (d : document) :
  name ≠ other →
  ((apply_settings name value ;;; get_setting other) d).1
  = (get_setting other d).1.
Proof.
  intros Hne. unfold apply_settings, get_setting. run.
  rewrite lookup_insert_ne by done. by destruct (settings d !! other).
Qed.

Lemma apply_settings_keeps_other_settings_witness :
  ((apply_settings "theme" (JStr "dark") ;;; get_setting "scale")
     (Document {["scale" := JNum 2]} [] ∅)).1
  = (get_setting "scale" (Document {["scale" := JNum 2]} [] ∅)).1.
Proof.
  apply (apply_settings_keeps_other_settings "theme" "scale" (JStr "dark")
           (Document {["scale" := JNum 2]} [] ∅)).
  discriminate.
Defined.

(** X3: once [remove_setting] has run (it raises, but it has written the
    file), the setting cannot be read any more, and a setting under another
    name reads as before. *)
Theorem remove_setting_then_get_setting (name other : string) (d : document) :
  name ≠ other →
  get_setting name (remove_setting name d).2
  = (Raises (NotFound name), (remove_setting name d).2)
  ∧ (get_setting other (remove_setting name d).2).1 = (get_setting other d).1.
Proof.
  intros Hne. unfold remove_setting, get_setting. run.
  case_bool_decide as Hin; run.
  - rewrite lookup_delete_eq, lookup_delete_ne by done.
    split; [done|]. by destruct (settings d !! other).
  - apply eq_None_not_Some in Hin. rewrite Hin.
    split; [done|]. by destruct (settings d !! other).
Qed.

Lemma remove_setting_then_get_setting_witness :
  get_setting "theme"
    (remove_setting "theme"
       (Document {["theme" := JStr "dark"; "scale" := JNum 2]} [] ∅)).2
  = (Raises (NotFound "theme"),
     (remove_setting "theme"
        (Document {["theme" := JStr "dark"; "scale" := JNum 2]} [] ∅)).2)
  ∧ (get_setting "scale"
       (remove_setting "theme"
          (Document {["theme" := JStr "dark"; "scale" := JNum 2]} [] ∅)).2).1
    = (get_setting "scale"
         (Document {["theme" := JStr "dark"; "scale" := JNum 2]} [] ∅)).1.
Proof.
  apply (remove_setting_then_get_setting "theme" "scale"
           (Document {["theme" := JStr "dark"; "scale" := JNum 2]} [] ∅)).
  discriminate.
Defined.

(** ** The group of a task *)

(** X4: the id [get_group_id_of_task] returns is the id of the first group,
    in the order of the file, that has the task as a member. *)
Theorem get_group_id_of_task_first
    (task_id group_id : string) (d : document) :
  (get_group_id_of_task task_id d).1 = Returns group_id →
  ∃ (i : nat) (group_data : GroupData.t),
    groups d !! i = Some (group_id, group_data)
    ∧ task_id ∈ GroupData.group_tasks group_data
    ∧ unlisted task_id (take i (groups d)).
Proof.
  unfold get_group_id_of_task. run.
  destruct (list_find _ (groups d)) as [[i [k group_data]]|] eqn:Hfind;
    [|done].
  simpl. intros [= ->].
  apply list_find_Some in Hfind as (Hi & Hin & Hbefore).
  exists i, group_data. split; [done|]. split; [done|].
  apply Forall_lookup_2. intros j entry Hj.
  apply lookup_take_Some in Hj as [Hj Hlt].
  by apply (Hbefore j entry).
Qed.

Lemma get_group_id_of_task_first_witness :
  ∃ (i : nat) (group_data : GroupData.t),
    groups doc_one !! i = Some ("G_1", group_data)
    ∧ "T_1" ∈ GroupData.group_tasks group_data
    ∧ unlisted "T_1" (take i (groups doc_one)).
Proof.
  apply (get_group_id_of_task_first "T_1" "G_1" doc_one). reflexivity.
Defined.

(** X5: [get_group_id_of_task] raises [NotFound] exactly when no group has
    the task as a member, and it never writes the file. *)
Theorem get_group_id_of_task_not_found (task_id : string) (d : document) :
  (get_group_id_of_task task_id d
   = (Raises (NotFound ("Task with id '" +:+ task_id
                        +:+ "' not found in any groups.")), d)
   ↔ unlisted task_id (groups d))
  ∧ (get_group_id_of_task task_id d).2 = d.
Proof.
  split; [|apply get_group_id_of_task_frame].
  unfold get_group_id_of_task, unlisted. run.
  destruct (list_find _ (groups d)) as [[i [k group_data]]|] eqn:Hfind.
  - split; [done|]. intros Hnone.
    apply list_find_Some in Hfind as (Hi & Hin & _).
    by apply (Forall_lookup_1 _ _ _ _ Hnone) in Hi.
  - split; [|done]. intros _. by apply list_find_None in Hfind.
Qed.

(** ** Round trips through the save file *)

Section round_trips.
Variable requests_get : string → option Response.

Lemma generate_id_loop_frame fuel stem cur count d :
  (generate_id_loop fuel stem cur count d).2 = d.
Proof.
  revert cur count. induction fuel as [|fuel IH]; intros cur count; [done|].
  simpl. unfold bind at 1. rewrite is_id_used_spec.
  case_bool_decide; [apply IH|done].
Qed.

Lemma generate_id_frame fuel prefix id_self d :
  (generate_id fuel prefix id_self d).2 = d.
Proof. apply generate_id_loop_frame. Qed.

(** What a constructor of a task that returns has done. *)
Lemma TaskClass_init_returns fuel id_self group_id task_name task_id
    button_text url file_path directory_path d task d' :
  TaskClass_init requests_get fuel id_self group_id task_name task_id
    button_text url file_path directory_path d = (Returns task, d') →
  task = TaskClass.mk (TaskClass.task_id task) group_id task_name button_text
           (url_setter requests_get url) file_path directory_path
  ∧ d' = set_tasks d (<[TaskClass.task_id task := TaskClass_get_task_data task]>
                        (tasks d)).
Proof.
  unfold TaskClass_init. destruct task_id as [task_id|].
  - run. by intros [= <- <-].
  - unfold bind at 1.
    pose proof (generate_id_frame fuel "T_" id_self d) as Hframe.
    destruct (generate_id fuel "T_" id_self d) as [[_id|e] d1];
      simpl in Hframe; subst d1; [|done].
    run. by intros [= <- <-].
Qed.

(** What a constructor of a group that returns has done. *)
Lemma GroupClass_init_returns fuel id_self group_name group_id group_tasks
    d group d' :
  GroupClass_init fuel id_self group_name group_id group_tasks d
  = (Returns group, d') →
  GroupClass._group_name group = group_name
  ∧ GroupClass.group_tasks group = default [] group_tasks
  ∧ GroupClass.i group = None
  ∧ d' = set_groups d
           (dict_update (GroupClass.group_id group)
              (GroupData.mk group_name (default [] group_tasks)) (groups d)).
Proof.
  unfold GroupClass_init. destruct group_id as [group_id|].
  - run. intros [= <- <-]. by destruct group_tasks as [[|]|].
  - unfold bind at 1.
    pose proof (generate_id_frame fuel "G_" id_self d) as Hframe.
    destruct (generate_id fuel "G_" id_self d) as [[_id|e] d1];
      simpl in Hframe; subst d1; [|done].
    run. intros [= <- <-]. by destruct group_tasks as [[|]|].
Qed.

Lemma list_find_dict_update task_id group_id group_data gs :
  unlisted task_id gs →
  task_id ∈ GroupData.group_tasks group_data →
  ∃ i, list_find (λ kv, task_id ∈ GroupData.group_tasks kv.2)
         (dict_update group_id group_data gs)
       = Some (i, (group_id, group_data)).
Proof.
  intros Hunlisted Hin.
  induction Hunlisted as [|[k v] gs Hk _ IH]; simpl.
  - exists 0. by rewrite decide_True.
  - case_decide; simpl.
    + exists 0. by rewrite decide_True.
    + destruct IH as [i ->]. exists (S i). by rewrite decide_False.
Qed.

Lemma list_find_unlisted task_id gs :
  unlisted task_id gs →
  list_find (λ kv, task_id ∈ GroupData.group_tasks kv.2) gs = None.
Proof. intros Hunlisted. by apply list_find_None. Qed.
End round_trips.

(** X6: a group that has been constructed, with a given or with a generated
    id, is what [get_group_by_id] returns for its id. *)
Theorem group_round_trip
    (fuel : nat) (id_self : N) (group_name : string)
    (group_id : option string) (group_tasks : option (list string))
    (d d' : document) (group : GroupClass.obj) :
  GroupClass_init fuel id_self group_name group_id group_tasks d
  = (Returns group, d') →
  get_group_by_id (GroupClass.group_id group) d' = (Returns group, d').
Proof.
  intros (Hname & Htasks & Hi & ->)%GroupClass_init_returns.
  erewrite get_group_by_id_run by apply dict_get_update_eq.
  simpl. destruct group; simpl in *. by subst.
Qed.

Lemma group_round_trip_witness :
  get_group_by_id "G_2"
    (GroupClass_init 0 0 "Files" (Some "G_2") (Some ["T_7"]) doc_one).2
  = (Returns (GroupClass.mk "G_2" "Files" ["T_7"] None),
     (GroupClass_init 0 0 "Files" (Some "G_2") (Some ["T_7"]) doc_one).2).
Proof.
  apply (group_round_trip 0 0 "Files" (Some "G_2") (Some ["T_7"]) doc_one
           (GroupClass_init 0 0 "Files" (Some "G_2") (Some ["T_7"]) doc_one).2
           (GroupClass.mk "G_2" "Files" ["T_7"] None)).
  reflexivity.
Defined.

(** X7: a task created through a group, under an id that no group of the
    file lists yet, is what [get_task_by_id] returns for its id: same fields,
    and the creating group as its group. *)
Theorem create_task_round_trip
    (requests_get : string → option Response) (fuel : nat) (id_new : N)
    (task_name : string) (task_id : option string)
    (button_text : option string) (url : url_arg)
    (file_path directory_path : option string)
    (self self' : GroupClass.obj) (d d' : document) (new_task : TaskClass.obj) :
  GroupClass_create_task requests_get fuel id_new task_name task_id
    button_text url file_path directory_path (self, d)
  = (Returns new_task, (self', d')) →
  unlisted (TaskClass.task_id new_task) (groups d) →
  get_task_by_id requests_get (TaskClass.task_id new_task) d'
  = (Returns new_task, d')
  ∧ TaskClass.group_id new_task = GroupClass.group_id self.
Proof.
  intros Hrun Hunlisted. revert Hrun.
  unfold GroupClass_create_task. unfold bind at 1, get_self. simpl.
  unfold bind at 1, on_file. simpl.
  destruct (TaskClass_init _ _ _ _ _ _ _ _ _ _ d) as [[task|e] d1] eqn:Hinit;
    [|done].
  apply TaskClass_init_returns in Hinit as [Htask ->].
  run. intros [= <- <- <-].
  destruct (list_find_dict_update (TaskClass.task_id task)
              (GroupClass.group_id self)
              (GroupData.mk (GroupClass._group_name self)
                 (GroupClass.group_tasks self ++ [TaskClass.task_id task]))
              (groups d) Hunlisted) as [i Hfind].
  { simpl. apply elem_of_app. right. by left. }
  split; [|by rewrite Htask].
  erewrite get_task_by_id_run; [|by apply lookup_insert_eq|exact Hfind].
  by rewrite Htask.
Qed.

Lemma create_task_round_trip_witness :
  get_task_by_id no_network "T_2"
    (GroupClass_create_task no_network 0 0 "Mail" (Some "T_2") None UrlNone
       None None (group_one, doc_one)).2.2
  = (Returns (TaskClass.mk "T_2" "G_1" "Mail" None [] None None),
     (GroupClass_create_task no_network 0 0 "Mail" (Some "T_2") None UrlNone
        None None (group_one, doc_one)).2.2)
  ∧ "G_1" = "G_1".
Proof.
  apply (create_task_round_trip no_network 0 0 "Mail" (Some "T_2") None UrlNone
           None None group_one
           (GroupClass.mk "G_1" "Web" ["T_1"; "T_2"] None) doc_one
           (GroupClass_create_task no_network 0 0 "Mail" (Some "T_2") None
              UrlNone None None (group_one, doc_one)).2.2
           (TaskClass.mk "T_2" "G_1" "Mail" None [] None None)).
  - reflexivity.
  - apply (bool_decide_unpack _). by vm_compute.
Defined.

(** X8: a task constructed on its own, under an id that no group lists, is
    stored but cannot be loaded: the group passed to the constructor is not
    written to the file, and [get_task_by_id] fails with [NotFound]. *)
Theorem task_without_group_cannot_be_loaded
    (requests_get : string → option Response) (fuel : nat) (id_self : N)
    (group_id task_name : string) (task_id : option string)
    (button_text : option string) (url : url_arg)
    (file_path directory_path : option string)
    (d d' : document) (task : TaskClass.obj) :
  TaskClass_init requests_get fuel id_self group_id task_name task_id
    button_text url file_path directory_path d = (Returns task, d') →
  unlisted (TaskClass.task_id task) (groups d) →
  tasks d' !! TaskClass.task_id task = Some (TaskClass_get_task_data task)
  ∧ get_task_by_id requests_get (TaskClass.task_id task) d'
    = (Raises (NotFound ("Task with id '" +:+ TaskClass.task_id task
                         +:+ "' not found in any groups.")), d').
Proof.
  intros [Htask ->]%TaskClass_init_returns Hunlisted.
  split; [by apply lookup_insert_eq|].
  rewrite get_task_by_id_cases. simpl.
  by rewrite lookup_insert_eq, list_find_unlisted.
Qed.

Lemma task_without_group_cannot_be_loaded_witness :
  tasks (TaskClass_init no_network 0 0 "G_1" "Mail" (Some "T_2") None UrlNone
           None None doc_one).2 !! "T_2"
  = Some (TaskData.mk "Mail" None [] None None)
  ∧ get_task_by_id no_network "T_2"
      (TaskClass_init no_network 0 0 "G_1" "Mail" (Some "T_2") None UrlNone
         None None doc_one).2
    = (Raises (NotFound "Task with id 'T_2' not found in any groups."),
       (TaskClass_init no_network 0 0 "G_1" "Mail" (Some "T_2") None UrlNone
          None None doc_one).2).
Proof.
  apply (task_without_group_cannot_be_loaded no_network 0 0 "G_1" "Mail"
           (Some "T_2") None UrlNone None None doc_one
           (TaskClass_init no_network 0 0 "G_1" "Mail" (Some "T_2") None
              UrlNone None None doc_one).2
           (TaskClass.mk "T_2" "G_1" "Mail" None [] None None)).
  - reflexivity.
  - apply (bool_decide_unpack _). by vm_compute.
Defined.

(** ** The tasks of a group *)

Section get_tasks_facts.
Variable requests_get : string → option Response.

Lemma map_each_get_task_by_id (ids : list string) (d : document) :
  (map_each ids (get_task_by_id requests_get) d).2 = d
  ∧ ∀ loaded,
      (map_each ids (get_task_by_id requests_get) d).1 = Returns loaded →
      TaskClass.task_id <$> loaded = ids
      ∧ Forall (λ task, tasks d !! TaskClass.task_id task
                        = Some (TaskClass_get_task_data task)) loaded.
Proof.
  induction ids as [|task_id ids [IHframe IH]]; simpl.
  - split; [done|]. by intros loaded [= <-].
  - unfold bind at 1 3. rewrite get_task_by_id_cases.
    destruct (tasks d !! task_id) as [task_data|] eqn:Hget; [|done].
    destruct (list_find _ (groups d)) as [[i [group_id group_data]]|]; [|done].
    unfold bind.
    destruct (map_each ids (get_task_by_id requests_get) d) as [[rest|e] d1];
      simpl in *; subst d1; [|done].
    split; [done|]. intros loaded [= <-].
    destruct (IH rest eq_refl) as [Hids Hrecords]. simpl.
    split; [by f_equal|]. constructor; [|done].
    simpl. rewrite Hget. by destruct task_data.
Qed.
End get_tasks_facts.

(** X9: [get_tasks] leaves the file as it was, and the objects it returns
    are the members of the group in the order of the member list, each with
    the fields of its stored record. *)
Theorem get_tasks_loads_the_members
    (requests_get : string → option Response) (self : GroupClass.obj)
    (d : document) (loaded : list TaskClass.obj) :
  (GroupClass_get_tasks requests_get self d).1 = Returns loaded →
  (GroupClass_get_tasks requests_get self d).2 = d
  ∧ TaskClass.task_id <$> loaded = GroupClass.group_tasks self
  ∧ Forall (λ task, tasks d !! TaskClass.task_id task
                    = Some (TaskClass_get_task_data task)) loaded.
Proof.
  intros Hrun. unfold GroupClass_get_tasks in *.
  destruct (map_each_get_task_by_id requests_get
              (GroupClass.group_tasks self) d) as [Hframe Hloaded].
  split; [done|]. by apply Hloaded.
Qed.

Lemma get_tasks_loads_the_members_witness :
  (GroupClass_get_tasks no_network group_one doc_one).2 = doc_one
  ∧ TaskClass.task_id <$> [TaskClass.mk "T_1" "G_1" "Open" None [] None None]
    = GroupClass.group_tasks group_one
  ∧ Forall (λ task, tasks doc_one !! TaskClass.task_id task
                    = Some (TaskClass_get_task_data task))
      [TaskClass.mk "T_1" "G_1" "Open" None [] None None].
Proof.
  apply (get_tasks_loads_the_members no_network group_one doc_one
           [TaskClass.mk "T_1" "G_1" "Open" None [] None None]).
  reflexivity.
Defined.

(** X10: [get_tasks] fails with [NotFoundInFile] at the first member that
    has no stored record, when the members before it load. *)
Theorem get_tasks_member_without_record
    (requests_get : string → option Response) (self : GroupClass.obj)
    (d : document) (before after : list string) (missing : string) :
  GroupClass.group_tasks self = before ++ missing :: after →
  tasks d !! missing = None →
  Forall (λ task_id, is_Some (tasks d !! task_id)
                     ∧ ¬ unlisted task_id (groups d)) before →
  GroupClass_get_tasks requests_get self d
  = (Raises (NotFoundInFile missing), d).
Proof.
  intros Htasks Hmissing Hbefore. unfold GroupClass_get_tasks.
  rewrite Htasks. clear Htasks.
  induction Hbefore as [|task_id before [[task_data Hget] Hlisted] _ IH]; simpl.
  - unfold bind at 1. rewrite get_task_by_id_cases. by rewrite Hmissing.
  - unfold bind at 1. rewrite get_task_by_id_cases, Hget.
    destruct (list_find _ (groups d)) as [[i [group_id group_data]]|] eqn:Hfind.
    + unfold bind. by rewrite IH.
    + destruct Hlisted. by apply list_find_None in Hfind.
Qed.

Lemma get_tasks_member_without_record_witness :
  GroupClass_get_tasks no_network
    (GroupClass.mk "G_1" "Web" ["T_1"; "T_9"; "T_3"] None) doc_one
  = (Raises (NotFoundInFile "T_9"), doc_one).
Proof.
  apply (get_tasks_member_without_record no_network
           (GroupClass.mk "G_1" "Web" ["T_1"; "T_9"; "T_3"] None) doc_one
           ["T_1"] ["T_3"] "T_9").
  - reflexivity.
  - by vm_compute.
  - apply (bool_decide_unpack _). by vm_compute.
Defined.

(** ** The calls that change a group *)

Section odict_more.
Context {V : Type}.
Implicit Types (d : list (string * V)) (k : string) (v : V).

Lemma dict_get_update_ne k k' v d :
  k ≠ k' → dict_get k' (dict_update k v d) = dict_get k' d.
Proof.
  intros Hne. induction d as [|[k0 v0] d IH]; simpl.
  - by rewrite decide_False.
  - case_decide; simpl; subst.
    + by rewrite !decide_False.
    + case_decide; [done|apply IH].
Qed.

Lemma dict_update_update k v v' d :
  dict_update k v (dict_update k v' d) = dict_update k v d.
Proof.
  induction d as [|[k0 v0] d IH]; simpl.
  - by rewrite decide_True.
  - case_decide; simpl; subst.
    + by rewrite decide_True.
    + rewrite decide_False by done. by rewrite IH.
Qed.

Lemma dict_keys_update k v d :
  dict_keys (dict_update k v d)
  = if decide (k ∈ dict_keys d) then dict_keys d else dict_keys d ++ [k].
Proof.
  unfold dict_keys. induction d as [|[k0 v0] d IH]; [done|].
  cbn [dict_update].
  destruct (decide (k = k0)) as [->|Hne]; rewrite !fmap_cons; cbn [fst].
  - clear IH. case_decide as Hin; [done|]. destruct Hin. left.
  - rewrite IH. clear IH. destruct (decide (k ∈ d.*1)) as [Hin|Hnotin].
    + case_decide as Hin'; [done|]. destruct Hin'. by right.
    + case_decide as Hin'; [|done].
      by apply elem_of_cons in Hin' as [?|?].
Qed.
End odict_more.

Section calls.
Variable requests_get : string → option Response.
Implicit Types (self : GroupClass.obj) (d : document) (m : mutator).

Lemma save_self_run self d :
  save_self (self, d)
  = (Returns tt,
     (self,
      set_groups d
        (dict_update (GroupClass.group_id self)
           (GroupData.mk (GroupClass._group_name self)
              (GroupClass.group_tasks self)) (groups d)))).
Proof. done. Qed.

Lemma in_sync_saved self d :
  in_sync self
    (set_groups d
       (dict_update (GroupClass.group_id self)
          (GroupData.mk (GroupClass._group_name self)
             (GroupClass.group_tasks self)) (groups d))).
Proof. apply dict_get_update_eq. Qed.

Lemma bind_ret_state {S A} (c : M S A) (s : S) : ((c ;;; ret tt) s).2 = (c s).2.
Proof. unfold bind, ret. by destruct (c s) as [[a|e] s']. Qed.

Lemma TaskClass_init_groups fuel id_self group_id task_name task_id
    button_text url file_path directory_path d :
  let after := (TaskClass_init requests_get fuel id_self group_id task_name
                  task_id button_text url file_path directory_path d).2 in
  settings after = settings d ∧ groups after = groups d.
Proof.
  simpl.
  destruct (TaskClass_init _ _ _ _ _ _ _ _ _ _ d) as [[task|e] d1] eqn:Hinit.
  - by apply TaskClass_init_returns in Hinit as [_ ->].
  - revert Hinit. unfold TaskClass_init.
    destruct task_id as [task_id|]; [done|].
    unfold bind at 1.
    pose proof (generate_id_frame fuel "T_" id_self d) as Hframe.
    destruct (generate_id fuel "T_" id_self d) as [[_id|e'] d2];
      simpl in Hframe; subst d2; [done|].
    by intros [= _ <-].
Qed.

Lemma GroupClass_create_task_run fuel id_new task_name task_id button_text
    url file_path directory_path self d :
  GroupClass_create_task requests_get fuel id_new task_name task_id
    button_text url file_path directory_path (self, d)
  = match TaskClass_init requests_get fuel id_new (GroupClass.group_id self)
            task_name task_id button_text url file_path directory_path d with
    | (Returns new_task, d1) =>
        (Returns new_task,
         (GroupClass.set_group_tasks self
            (GroupClass.group_tasks self ++ [TaskClass.task_id new_task]),
          set_groups d1
            (dict_update (GroupClass.group_id self)
               (GroupData.mk (GroupClass._group_name self)
                  (GroupClass.group_tasks self ++ [TaskClass.task_id new_task]))
               (groups d1))))
    | (Raises e, d1) => (Raises e, (self, d1))
    end.
Proof.
  unfold GroupClass_create_task. run.
  by destruct (TaskClass_init _ _ _ _ _ _ _ _ _ _ d) as [[task|e] d1].
Qed.

Lemma GroupClass_create_task_frame fuel id_new task_name task_id button_text
    url file_path directory_path self d other :
  other ≠ GroupClass.group_id self →
  let after := (GroupClass_create_task requests_get fuel id_new task_name
                  task_id button_text url file_path directory_path
                  (self, d)).2.2 in
  settings after = settings d
  ∧ dict_get other (groups after) = dict_get other (groups d).
Proof.
  intros Hother. simpl. rewrite GroupClass_create_task_run.
  pose proof (TaskClass_init_groups fuel id_new (GroupClass.group_id self)
                task_name task_id button_text url file_path directory_path d)
    as [Hsettings Hgroups]. simpl in *.
  destruct (TaskClass_init _ _ _ _ _ _ _ _ _ _ d) as [[task|e] d1]; simpl in *.
  - rewrite dict_get_update_ne by done. by rewrite Hsettings, Hgroups.
  - by rewrite Hsettings, Hgroups.
Qed.
End calls.

(** X11: after every call that changes a group and returns, the object and
    the save file agree: the record stored under the id of the group holds
    the name and the member list the object has. *)
Theorem calls_keep_object_and_file_in_sync
    (requests_get : string → option Response) (m : mutator)
    (self self' : GroupClass.obj) (d d' : document) :
  call requests_get m (self, d) = (Returns tt, (self', d')) →
  in_sync self' d'.
Proof.
  destruct m; simpl.
  - unfold GroupClass_set_group_name. run. intros [= <- <-].
    apply in_sync_saved.
  - unfold GroupClass_insert. run. case_bool_decide; run; [done|].
    intros [= <- <-]. apply in_sync_saved.
  - unfold GroupClass_append. run. case_bool_decide; run; [done|].
    intros [= <- <-]. apply in_sync_saved.
  - unfold GroupClass_remove. run. case_bool_decide; run; [done|].
    intros [= <- <-]. apply in_sync_saved.
  - unfold bind. rewrite GroupClass_create_task_run.
    destruct (TaskClass_init _ _ _ _ _ _ _ _ _ _ d) as [[task|e] d1]; [|done].
    unfold ret. intros [= <- <-]. apply dict_get_update_eq.
Qed.

Lemma calls_keep_object_and_file_in_sync_witness :
  in_sync (GroupClass.mk "G_1" "Web" ["T_7"; "T_1"] None)
    (Document ∅ [("G_1", GroupData.mk "Web" ["T_7"; "T_1"])]
       {["T_1" := task_open]}).
Proof.
  apply (calls_keep_object_and_file_in_sync no_network (CallInsert 0 "T_7")
           group_one (GroupClass.mk "G_1" "Web" ["T_7"; "T_1"] None) doc_one
           (Document ∅ [("G_1", GroupData.mk "Web" ["T_7"; "T_1"])]
              {["T_1" := task_open]})).
  vm_compute. reflexivity.
Defined.

(** X12: a call on a group, whether it returns or raises, changes neither
    the settings nor the record of any other group; only [create_task]
    changes [tasks]. *)
Theorem calls_touch_only_their_group
    (requests_get : string → option Response) (m : mutator)
    (self : GroupClass.obj) (d : document) (other : string) :
  other ≠ GroupClass.group_id self →
  settings (call requests_get m (self, d)).2.2 = settings d
  ∧ dict_get other (groups (call requests_get m (self, d)).2.2)
    = dict_get other (groups d)
  ∧ match m with
    | CallCreateTask _ _ _ _ _ _ _ _ => True
    | _ => tasks (call requests_get m (self, d)).2.2 = tasks d
    end.
Proof.
  intros Hother. destruct m; simpl.
  - unfold GroupClass_set_group_name. run.
    by rewrite dict_get_update_ne.
  - unfold GroupClass_insert. run. case_bool_decide; run; [done|].
    by rewrite dict_get_update_ne.
  - unfold GroupClass_append. run. case_bool_decide; run; [done|].
    by rewrite dict_get_update_ne.
  - unfold GroupClass_remove. run. case_bool_decide; run; [done|].
    by rewrite dict_get_update_ne.
  - rewrite !bind_ret_state.
    destruct (GroupClass_create_task_frame requests_get fuel id_new task_name
                task_id button_text url file_path directory_path self d other
                Hother) as [Hsettings Hgroups].
    done.
Qed.

Lemma calls_touch_only_their_group_witness :
  settings (call no_network (CallAppend "T_2") (group_one, doc_one)).2.2
  = settings doc_one
  ∧ dict_get "G_2"
      (groups (call no_network (CallAppend "T_2") (group_one, doc_one)).2.2)
    = dict_get "G_2" (groups doc_one)
  ∧ tasks (call no_network (CallAppend "T_2") (group_one, doc_one)).2.2
    = tasks doc_one.
Proof.
  apply (calls_touch_only_their_group no_network (CallAppend "T_2") group_one
           doc_one "G_2").
  discriminate.
Defined.

(** ** Member lists *)

Section member_list_more.
Implicit Types (x y : string) (xs : list string).

Lemma list_remove_app_new x xs : x ∉ xs → list_remove x (xs ++ [x]) = xs.
Proof.
  induction xs as [|y xs IH]; intros Hnotin; simpl.
  - by rewrite decide_True.
  - apply not_elem_of_cons in Hnotin as [Hne Hnotin].
    rewrite decide_False by done. by rewrite IH.
Qed.

Lemma filter_all_kept (P : string → Prop) `{!∀ y, Decision (P y)} xs :
  Forall P xs → filter P xs = xs.
Proof.
  induction 1 as [|y xs Hy _ IH]; [done|].
  by rewrite filter_cons_True, IH.
Qed.

Lemma list_remove_filter x xs :
  NoDup xs → list_remove x xs = filter (λ y, y ≠ x) xs.
Proof.
  induction 1 as [|y xs Hy Hnodup IH]; [done|]. simpl.
  rewrite filter_cons. destruct (decide (x = y)) as [->|Hne].
  - rewrite decide_False by (by intros Hne; apply Hne).
    symmetry. apply filter_all_kept.
    apply Forall_forall. intros z Hz ->. done.
  - rewrite decide_True by done. by rewrite IH.
Qed.

Lemma list_remove_insert_at index x xs :
  x ∉ xs → list_remove x (list_insert_at index x xs) = xs.
Proof.
  intros Hnotin. unfold list_insert_at.
  generalize (Z.to_nat
                (if (index <? 0)%Z
                 then Z.max 0 (index + Z.of_nat (length xs))
                 else Z.min index (Z.of_nat (length xs)))).
  intros pos. revert pos. induction xs as [|y xs IH]; intros pos; simpl.
  - destruct pos; simpl; by rewrite decide_True.
  - apply not_elem_of_cons in Hnotin as [Hne Hnotin].
    destruct pos as [|pos]; simpl.
    + by rewrite decide_True.
    + rewrite decide_False by done. by rewrite IH.
Qed.
End member_list_more.

(** X13: [append] followed by [remove] of the same id, on a group that is in
    sync with the file and does not have the id, leaves the object and the
    file exactly as they were. *)
Theorem append_then_remove_is_identity
    (self : GroupClass.obj) (d : document) (task_id : string) :
  in_sync self d →
  task_id ∉ GroupClass.group_tasks self →
  (GroupClass_append task_id ;;; GroupClass_remove task_id) (self, d)
  = (Returns tt, (self, d)).
Proof.
  intros Hsync Hnotin. unfold GroupClass_append, GroupClass_remove. run.
  rewrite bool_decide_eq_false_2 by done. run.
  rewrite bool_decide_eq_false_2
    by (intros Hno; apply Hno, elem_of_app; right; left).
  run. rewrite list_remove_app_new by done.
  unfold set_groups. simpl.
  rewrite dict_update_update, dict_update_same by exact Hsync.
  rewrite document_eta. by destruct self.
Qed.

Lemma append_then_remove_is_identity_witness :
  (GroupClass_append "T_2" ;;; GroupClass_remove "T_2") (group_one, doc_one)
  = (Returns tt, (group_one, doc_one)).
Proof.
  apply (append_then_remove_is_identity group_one doc_one "T_2").
  - reflexivity.
  - apply (bool_decide_unpack _). by vm_compute.
Defined.

(** X14: [remove] on a member list without duplicates takes the id out and
    keeps the other members in their order; the list stays free of
    duplicates. *)
Theorem remove_takes_the_member_out
    (self self' : GroupClass.obj) (d d' : document) (task_id : string) :
  GroupClass_remove task_id (self, d) = (Returns tt, (self', d')) →
  NoDup (GroupClass.group_tasks self) →
  GroupClass.group_tasks self'
  = filter (λ y, y ≠ task_id) (GroupClass.group_tasks self)
  ∧ (task_id ∉ GroupClass.group_tasks self')
  ∧ NoDup (GroupClass.group_tasks self').
Proof.
  unfold GroupClass_remove. run. case_bool_decide; run; [done|].
  intros [= <- <-] Hnodup. simpl. rewrite list_remove_filter by done.
  split; [done|]. split.
  - intros [Hne _]%list_elem_of_filter. done.
  - by apply NoDup_filter.
Qed.

Lemma remove_takes_the_member_out_witness :
  GroupClass.group_tasks (GroupClass.mk "G_1" "Web" ["a"; "c"] None)
  = filter (λ y, y ≠ "b") ["a"; "b"; "c"]
  ∧ ("b" ∉ GroupClass.group_tasks (GroupClass.mk "G_1" "Web" ["a"; "c"] None))
  ∧ NoDup (GroupClass.group_tasks (GroupClass.mk "G_1" "Web" ["a"; "c"] None)).
Proof.
  apply (remove_takes_the_member_out
           (GroupClass.mk "G_1" "Web" ["a"; "b"; "c"] None)
           (GroupClass.mk "G_1" "Web" ["a"; "c"] None)
           doc_one
           (Document ∅ [("G_1", GroupData.mk "Web" ["a"; "c"])]
              {["T_1" := task_open]}) "b").
  - vm_compute. reflexivity.
  - apply (bool_decide_unpack _). by vm_compute.
Defined.

(** X15: [insert] with an index that is not negative, when it returns, has
    made the list one longer and put the new id at the index, or last when
    the index is past the end; taking the new id out again gives the old
    list, so the other members keep their order. *)
Theorem insert_puts_the_id_at_the_index
    (self self' : GroupClass.obj) (d d' : document) (index : Z)
    (new_task_id : string) :
  GroupClass_insert index new_task_id (self, d) = (Returns tt, (self', d')) →
  (0 ≤ index)%Z →
  length (GroupClass.group_tasks self') = S (length (GroupClass.group_tasks self))
  ∧ GroupClass.group_tasks self'
      !! (Z.to_nat index `min` length (GroupClass.group_tasks self))
    = Some new_task_id
  ∧ list_remove new_task_id (GroupClass.group_tasks self')
    = GroupClass.group_tasks self.
Proof.
  unfold GroupClass_insert. run. case_bool_decide as Hin; run; [done|].
  intros [= <- <-] Hindex. simpl.
  split; [|split; [|by apply list_remove_insert_at]].
  - rewrite list_insert_at_Permutation. done.
  - unfold list_insert_at.
    rewrite (proj2 (Z.ltb_ge index 0)) by done.
    replace (Z.to_nat (index `min` Z.of_nat (length (GroupClass.group_tasks self))))
      with (Z.to_nat index `min` length (GroupClass.group_tasks self)) by lia.
    rewrite list_lookup_middle; [done|].
    rewrite length_take. lia.
Qed.

Lemma insert_puts_the_id_at_the_index_witness :
  length (GroupClass.group_tasks (GroupClass.mk "G_1" "Web" ["a"; "x"; "b"] None))
  = S (length (GroupClass.group_tasks (GroupClass.mk "G_1" "Web" ["a"; "b"] None)))
  ∧ GroupClass.group_tasks (GroupClass.mk "G_1" "Web" ["a"; "x"; "b"] None)
      !! (Z.to_nat 1
          `min` length (GroupClass.group_tasks
                          (GroupClass.mk "G_1" "Web" ["a"; "b"] None)))
    = Some "x"
  ∧ list_remove "x"
      (GroupClass.group_tasks (GroupClass.mk "G_1" "Web" ["a"; "x"; "b"] None))
    = GroupClass.group_tasks (GroupClass.mk "G_1" "Web" ["a"; "b"] None).
Proof.
  apply (insert_puts_the_id_at_the_index
           (GroupClass.mk "G_1" "Web" ["a"; "b"] None)
           (GroupClass.mk "G_1" "Web" ["a"; "x"; "b"] None)
           doc_one
           (Document ∅ [("G_1", GroupData.mk "Web" ["a"; "x"; "b"])]
              {["T_1" := task_open]}) 1 "x").
  - vm_compute. reflexivity.
  - lia.
Defined.

(** X16: saving a group never reorders the groups of the file: a group that
    is stored keeps its place in what [load_groups] returns, and a group
    that is new goes to the end. *)
Theorem save_group_keeps_the_order (self : GroupClass.obj) (d : document) :
  ((GroupClass_save_group self ;;; load_groups) d).1
  = Returns (if decide (GroupClass.group_id self ∈ dict_keys (groups d))
             then dict_keys (groups d)
             else dict_keys (groups d) ++ [GroupClass.group_id self]).
Proof.
  unfold GroupClass_save_group, load_groups. run.
  by rewrite dict_keys_update.
Qed.

(** ** Reordering *)

Section reorder_facts.
Context {V : Type}.
Implicit Types (d built original : list (string * V)) (k : string) (v : V).

Lemma dict_mem_is_Some k d : k ∈ dict_keys d ↔ is_Some (dict_get k d).
Proof.
  unfold dict_keys. induction d as [|[k0 v0] d IH]; simpl.
  - split; [by intros ?%elem_of_nil|by intros [? ?]].
  - rewrite elem_of_cons. case_decide as Hk.
    + split; [by eexists|by left].
    + rewrite IH. split; [by intros [?|?]|by right].
Qed.

Lemma dict_update_fresh k v d :
  k ∉ dict_keys d → dict_update k v d = d ++ [(k, v)].
Proof.
  unfold dict_keys. induction d as [|[k0 v0] d IH]; simpl; [done|].
  intros [Hne Hnotin]%not_elem_of_cons.
  rewrite decide_False by done. by rewrite IH.
Qed.

(** The pairs a comprehension over [new_order] collects. *)
Lemma reorder_build_run {S} original new_order built (s : S) :
  Forall (λ k, k ∈ dict_keys original) new_order →
  NoDup new_order →
  (∀ k, k ∈ new_order → k ∉ dict_keys built) →
  reorder_build original new_order built s
  = (Returns (built ++ omap (λ k, pair k <$> dict_get k original) new_order),
     s).
Proof.
  intros Hknown. revert built.
  induction Hknown as [|k new_order Hk _ IH]; intros built Hnodup Hfresh; simpl.
  - by rewrite (right_id_L [] (++)).
  - apply dict_mem_is_Some in Hk as [v Hv]. rewrite Hv. simpl.
    apply NoDup_cons in Hnodup as [Hk Hnodup].
    rewrite dict_update_fresh by (apply Hfresh; left).
    rewrite IH; [by rewrite <-(assoc_L (++))|done|].
    intros k' Hk'. unfold dict_keys. rewrite fmap_app, not_elem_of_app.
    split; [apply Hfresh; by right|].
    simpl. intros ->%list_elem_of_singleton. done.
Qed.

Lemma collected_keys original new_order :
  Forall (λ k, k ∈ dict_keys original) new_order →
  dict_keys (omap (λ k, pair k <$> dict_get k original) new_order) = new_order.
Proof.
  unfold dict_keys at 2.
  induction 1 as [|k new_order Hk _ IH]; simpl; [done|].
  apply dict_mem_is_Some in Hk as [v Hv]. rewrite Hv. simpl.
  f_equal. apply IH.
Qed.

Lemma collected_get original new_order k :
  Forall (λ k, k ∈ dict_keys original) new_order →
  dict_get k (omap (λ k, pair k <$> dict_get k original) new_order)
  = if decide (k ∈ new_order) then dict_get k original else None.
Proof.
  induction 1 as [|k0 new_order Hk0 _ IH]; simpl; [done|].
  apply dict_mem_is_Some in Hk0 as [v Hv]. rewrite Hv. simpl.
  destruct (decide (k = k0)) as [->|Hne].
  - rewrite decide_True by left. done.
  - etrans; [exact IH|]. destruct (decide (k ∈ new_order)) as [Hin|Hnotin].
    + rewrite decide_True by (by right). done.
    + rewrite decide_False; [done|]. by intros [?|?]%elem_of_cons.
Qed.

(** The comprehension stops at the first key that is not stored. *)
Lemma reorder_build_unknown {S} original before k after built (s : S) :
  Forall (λ k, k ∈ dict_keys original) before →
  k ∉ dict_keys original →
  reorder_build original (before ++ k :: after) built s = (Raises (KeyError k), s).
Proof.
  intros Hknown Hunknown. revert built.
  induction Hknown as [|k0 before Hk0 _ IH]; intros built; simpl.
  - destruct (dict_get k original) as [v|] eqn:Hget; [|done].
    destruct Hunknown. apply dict_mem_is_Some. by eexists.
  - apply dict_mem_is_Some in Hk0 as [v Hv]. rewrite Hv. apply IH.
Qed.
End reorder_facts.

(** X17: [reorder_groups] with a list of stored group ids, each named once,
    returns; [load_groups] then gives exactly that list, every named group
    has the record it had, and settings and tasks are as before. *)
Theorem reorder_groups_sets_the_order (new_order : list string) (d : document) :
  Forall (λ k, k ∈ dict_keys (groups d)) new_order →
  NoDup new_order →
  ∃ d',
    reorder_groups new_order d = (Returns tt, d')
    ∧ load_groups d' = (Returns new_order, d')
    ∧ Forall (λ k, dict_get k (groups d') = dict_get k (groups d)) new_order
    ∧ settings d' = settings d
    ∧ tasks d' = tasks d.
Proof.
  intros Hknown Hnodup. unfold reorder_groups, load_groups. run.
  rewrite reorder_build_run; [|done|done|intros k _; apply not_elem_of_nil].
  eexists. split; [reflexivity|]. simpl.
  rewrite collected_keys by done. split; [done|]. split; [|done].
  apply Forall_forall. intros k Hk.
  rewrite collected_get by done. by rewrite decide_True.
Qed.

Lemma reorder_groups_sets_the_order_witness :
  ∃ d',
    reorder_groups ["G_2"; "G_1"]
      (Document ∅ [("G_1", GroupData.mk "Web" ["T_1"]);
                   ("G_2", GroupData.mk "Files" [])] ∅)
    = (Returns tt, d')
    ∧ load_groups d' = (Returns ["G_2"; "G_1"], d')
    ∧ Forall (λ k, dict_get k (groups d')
                   = dict_get k
                       (groups
                          (Document ∅ [("G_1", GroupData.mk "Web" ["T_1"]);
                                       ("G_2", GroupData.mk "Files" [])] ∅)))
        ["G_2"; "G_1"]
    ∧ settings d'
      = settings (Document ∅ [("G_1", GroupData.mk "Web" ["T_1"]);
                              ("G_2", GroupData.mk "Files" [])] ∅)
    ∧ tasks d'
      = tasks (Document ∅ [("G_1", GroupData.mk "Web" ["T_1"]);
                           ("G_2", GroupData.mk "Files" [])] ∅).
Proof.
  apply (reorder_groups_sets_the_order ["G_2"; "G_1"]
           (Document ∅ [("G_1", GroupData.mk "Web" ["T_1"]);
                        ("G_2", GroupData.mk "Files" [])] ∅)).
  - apply (bool_decide_unpack _). by vm_compute.
  - apply (bool_decide_unpack _). by vm_compute.
Defined.

(** X18: [reorder_groups] with an id that is not stored raises [KeyError]
    for the first such id and leaves the file as it was. *)
Theorem reorder_groups_unknown_id
    (before after : list string) (unknown : string) (d : document) :
  Forall (λ k, k ∈ dict_keys (groups d)) before →
  unknown ∉ dict_keys (groups d) →
  reorder_groups (before ++ unknown :: after) d = (Raises (KeyError unknown), d).
Proof.
  intros Hknown Hunknown. unfold reorder_groups. run.
  by rewrite reorder_build_unknown.
Qed.

Lemma reorder_groups_unknown_id_witness :
  reorder_groups (["G_1"] ++ "G_9" :: ["G_1"]) doc_one
  = (Raises (KeyError "G_9"), doc_one).
Proof.
  apply (reorder_groups_unknown_id ["G_1"] ["G_1"] "G_9" doc_one).
  - apply (bool_decide_unpack _). by vm_compute.
  - apply (bool_decide_unpack _). by vm_compute.
Defined.



(** X20: [reorder_items] cannot succeed on a save file the module writes:
    the document has no key ["items"], so the call raises [KeyError] before
    it writes anything, whatever the order asked for. *)
Theorem reorder_items_always_fails (new_order : list string) (d : document) :
  reorder_items new_order (Init.Holds (json_of_document d))
  = (Raises (KeyError "items"), Init.Holds (json_of_document d)).
Proof. done. Qed.

(** ** Ids of objects constructed one after the other *)

Lemma elem_of_used_ids _id d :
  _id ∈ used_ids d ↔ _id ∈ dict_keys (groups d) ∨ is_Some (tasks d !! _id).
Proof.
  unfold used_ids. rewrite elem_of_app, list_elem_of_fmap.
  apply or_iff_compat_l. split.
  - intros [[k task_data] [-> Hin]]. exists task_data.
    by apply elem_of_map_to_list.
  - intros [task_data Hget]. exists (_id, task_data).
    by rewrite elem_of_map_to_list.
Qed.

Lemma used_ids_save_task _id task_id task_data d :
  _id = task_id ∨ _id ∈ used_ids d →
  _id ∈ used_ids (set_tasks d (<[task_id := task_data]> (tasks d))).
Proof.
  rewrite !elem_of_used_ids. simpl. rewrite lookup_insert_is_Some.
  destruct (decide (task_id = _id)) as [Heq|Hne]; [by right; left|].
  intros [->|[Hin|Htask]]; [done|by left|by right; right].
Qed.

Lemma used_ids_save_group _id group_id group_data d :
  _id = group_id ∨ _id ∈ used_ids d →
  _id ∈ used_ids (set_groups d (dict_update group_id group_data (groups d))).
Proof.
  rewrite !elem_of_used_ids. simpl. rewrite dict_keys_update.
  intros [->|[Hin|Htask]]; [|left|by right].
  - left. case_decide; [done|]. apply elem_of_app. right. left.
  - case_decide; [done|]. apply elem_of_app. by left.
Qed.

Section id_facts.
Variable requests_get : string → option Response.

(** Whatever the fuel, an id the loop returns is one [is_id_used] rejects. *)
Lemma generate_id_loop_unused fuel stem cur count d _id d' :
  generate_id_loop fuel stem cur count d = (Returns _id, d') →
  _id ∉ used_ids d.
Proof.
  revert cur count. induction fuel as [|fuel IH]; intros cur count; [done|].
  simpl. unfold bind at 1. rewrite is_id_used_spec.
  case_bool_decide as Hused; [apply IH|].
  by intros [= <- _].
Qed.

Lemma TaskClass_init_generated fuel id_self group_id task_name button_text
    url file_path directory_path d task d' :
  TaskClass_init requests_get fuel id_self group_id task_name None
    button_text url file_path directory_path d = (Returns task, d') →
  TaskClass.task_id task ∉ used_ids d.
Proof.
  unfold TaskClass_init. unfold bind at 1.
  destruct (generate_id fuel "T_" id_self d) as [[_id|e] d1] eqn:Hgen; [|done].
  apply generate_id_loop_unused in Hgen. run. by intros [= <- _].
Qed.

Lemma GroupClass_init_generated fuel id_self group_name group_tasks d group d' :
  GroupClass_init fuel id_self group_name None group_tasks d
  = (Returns group, d') →
  GroupClass.group_id group ∉ used_ids d.
Proof.
  unfold GroupClass_init. unfold bind at 1.
  destruct (generate_id fuel "G_" id_self d) as [[_id|e] d1] eqn:Hgen; [|done].
  apply generate_id_loop_unused in Hgen. run. by intros [= <- _].
Qed.
End id_facts.

(** X21: an id generated for a task or for a group differs from the id of
    every task and group constructed before it, also when [id(self)] is the
    same number again. *)
Theorem later_generated_ids_differ
    (requests_get : string → option Response)
    (fuel1 fuel2 fuel3 fuel4 : nat) (id1 id2 id3 id4 : N)
    (group_id1 name1 name2 name3 name4 : string)
    (task_id1 group_id2 : option string)
    (bt1 bt3 fp1 dp1 fp3 dp3 : option string) (url1 url3 : url_arg)
    (members2 members4 : option (list string)) (group_id3 : string)
    (d d1 d2 d3 d4 : document)
    (task1 task3 : TaskClass.obj) (group2 group4 : GroupClass.obj) :
  TaskClass_init requests_get fuel1 id1 group_id1 name1 task_id1 bt1 url1
    fp1 dp1 d = (Returns task1, d1) →
  GroupClass_init fuel2 id2 name2 group_id2 members2 d1 = (Returns group2, d2) →
  TaskClass_init requests_get fuel3 id3 group_id3 name3 None bt3 url3
    fp3 dp3 d2 = (Returns task3, d3) →
  GroupClass_init fuel4 id4 name4 None members4 d3 = (Returns group4, d4) →
  TaskClass.task_id task3 ≠ TaskClass.task_id task1
  ∧ TaskClass.task_id task3 ≠ GroupClass.group_id group2
  ∧ GroupClass.group_id group4 ≠ TaskClass.task_id task1
  ∧ GroupClass.group_id group4 ≠ GroupClass.group_id group2
  ∧ GroupClass.group_id group4 ≠ TaskClass.task_id task3.
Proof.
  intros Htask1 Hgroup2 Htask3 Hgroup4.
  pose proof (TaskClass_init_generated _ _ _ _ _ _ _ _ _ _ _ _ Htask3) as Hnew3.
  pose proof (GroupClass_init_generated _ _ _ _ _ _ _ Hgroup4) as Hnew4.
  apply TaskClass_init_returns in Htask1 as [_ ->].
  apply GroupClass_init_returns in Hgroup2 as (_ & _ & _ & ->).
  apply TaskClass_init_returns in Htask3 as [_ ->].
  repeat split; intros Heq.
  - apply Hnew3. rewrite Heq.
    apply used_ids_save_group. right. apply used_ids_save_task. by left.
  - apply Hnew3. rewrite Heq. apply used_ids_save_group. by left.
  - apply Hnew4. rewrite Heq. apply used_ids_save_task. right.
    apply used_ids_save_group. right. apply used_ids_save_task. by left.
  - apply Hnew4. rewrite Heq. apply used_ids_save_task. right.
    apply used_ids_save_group. by left.
  - apply Hnew4. rewrite Heq. apply used_ids_save_task. by left.
Qed.

Lemma later_generated_ids_differ_witness :
  "T_7-1" ≠ "T_7" ∧ "T_7-1" ≠ "G_7" ∧ "G_7-1" ≠ "T_7" ∧ "G_7-1" ≠ "G_7"
  ∧ "G_7-1" ≠ "T_7-1".
Proof.
  apply (later_generated_ids_differ no_network 3 3 3 3 7 7 7 7
           "G_1" "Mail" "Files" "News" "Notes" None None None None None None
           None None UrlNone UrlNone None None "G_1"
           empty_document
           (TaskClass_init no_network 3 7 "G_1" "Mail" None None UrlNone None
              None empty_document).2
           (GroupClass_init 3 7 "Files" None None
              (TaskClass_init no_network 3 7 "G_1" "Mail" None None UrlNone
                 None None empty_document).2).2
           (TaskClass_init no_network 3 7 "G_1" "News" None None UrlNone None
              None
              (GroupClass_init 3 7 "Files" None None
                 (TaskClass_init no_network 3 7 "G_1" "Mail" None None UrlNone
                    None None empty_document).2).2).2
           (GroupClass_init 3 7 "Notes" None None
              (TaskClass_init no_network 3 7 "G_1" "News" None None UrlNone
                 None None
                 (GroupClass_init 3 7 "Files" None None
                    (TaskClass_init no_network 3 7 "G_1" "Mail" None None
                       UrlNone None None empty_document).2).2).2).2
           (TaskClass.mk "T_7" "G_1" "Mail" None [] None None)
           (TaskClass.mk "T_7-1" "G_1" "News" None [] None None)
           (GroupClass.mk "G_7" "Files" [] None)
           (GroupClass.mk "G_7-1" "Notes" [] None));
    vm_compute; reflexivity.
Defined.

(** ** Deleting, in general *)

Section odict_pop.
Context {V : Type}.
Implicit Types (d : list (string * V)) (k : string).

Lemma dict_pop_keys k d d' :
  dict_pop k d = Some d' → dict_keys d' = list_remove k (dict_keys d).
Proof.
  unfold dict_keys. revert d'.
  induction d as [|[k0 v0] d IH]; intros d'; simpl; [done|].
  case_decide; [by intros [= <-]|].
  destruct (dict_pop k d) as [d0|]; [|done].
  simpl. intros [= <-]. simpl. f_equal. by apply IH.
Qed.

Lemma dict_pop_get_ne k k' d d' :
  dict_pop k d = Some d' → k ≠ k' → dict_get k' d' = dict_get k' d.
Proof.
  revert d'. induction d as [|[k0 v0] d IH]; intros d'; simpl; [done|].
  destruct (decide (k = k0)) as [->|Hne].
  - intros [= <-] Hne. by rewrite decide_False.
  - destruct (dict_pop k d) as [d0|]; [|done].
    simpl. intros [= <-] Hne'. simpl. case_decide; [done|]. by apply IH.
Qed.
End odict_pop.

(** X22: deleting a stored group that has no members returns: the group is
    out of what [load_groups] gives, the other groups keep their order and
    their records, and settings and tasks are as before. *)
Theorem delete_group_without_members
    (requests_get : string → option Response) (fuel : nat)
    (group_id other : string) (group_data : GroupData.t) (d : document) :
  dict_get group_id (groups d) = Some group_data →
  GroupData.group_tasks group_data = [] →
  other ≠ group_id →
  ∃ d',
    delete_group_by_id requests_get fuel group_id d = (Returns tt, d')
    ∧ load_groups d'
      = (Returns (list_remove group_id (dict_keys (groups d))), d')
    ∧ dict_get other (groups d') = dict_get other (groups d)
    ∧ settings d' = settings d
    ∧ tasks d' = tasks d.
Proof.
  intros Hget Hempty Hother. unfold delete_group_by_id, bind at 1.
  rewrite get_group_by_id_cases, Hget.
  unfold GroupClass_delete_group_and_tasks. run.
  destruct (dict_pop_is_Some _ _ _ Hget) as [groups' Hpop].
  rewrite Hpop, Hempty. simpl. eexists. split; [reflexivity|].
  unfold load_groups. run.
  rewrite (dict_pop_keys _ _ _ Hpop).
  by rewrite (dict_pop_get_ne _ _ _ _ Hpop).
Qed.

Lemma delete_group_without_members_witness :
  ∃ d',
    delete_group_by_id no_network 0 "G_2"
      (Document ∅ [("G_1", GroupData.mk "Web" ["T_1"]);
                   ("G_2", GroupData.mk "Files" [])] {["T_1" := task_open]})
    = (Returns tt, d')
    ∧ load_groups d'
      = (Returns
           (list_remove "G_2"
              (dict_keys
                 (groups
                    (Document ∅ [("G_1", GroupData.mk "Web" ["T_1"]);
                                 ("G_2", GroupData.mk "Files" [])]
                       {["T_1" := task_open]})))), d')
    ∧ dict_get "G_1" (groups d')
      = dict_get "G_1"
          (groups (Document ∅ [("G_1", GroupData.mk "Web" ["T_1"]);
                               ("G_2", GroupData.mk "Files" [])]
                     {["T_1" := task_open]}))
    ∧ settings d'
      = settings (Document ∅ [("G_1", GroupData.mk "Web" ["T_1"]);
                              ("G_2", GroupData.mk "Files" [])]
                    {["T_1" := task_open]})
    ∧ tasks d'
      = tasks (Document ∅ [("G_1", GroupData.mk "Web" ["T_1"]);
                           ("G_2", GroupData.mk "Files" [])]
                 {["T_1" := task_open]}).
Proof.
  apply (delete_group_without_members no_network 0 "G_2" "G_1"
           (GroupData.mk "Files" [])
           (Document ∅ [("G_1", GroupData.mk "Web" ["T_1"]);
                        ("G_2", GroupData.mk "Files" [])]
              {["T_1" := task_open]})).
  - reflexivity.
  - reflexivity.
  - discriminate.
Defined.

(** X23: an id that is not stored: the lookups and the deletes raise,
    [KeyError] for a group and [NotFoundInFile] for a task, and the file is
    as it was. *)
Theorem absent_ids_raise
    (requests_get : string → option Response) (fuel : nat)
    (group_id task_id : string) (d : document) :
  group_id ∉ dict_keys (groups d) →
  tasks d !! task_id = None →
  get_group_by_id group_id d = (Raises (KeyError group_id), d)
  ∧ delete_group_by_id requests_get fuel group_id d
    = (Raises (KeyError group_id), d)
  ∧ get_task_by_id requests_get task_id d = (Raises (NotFoundInFile task_id), d)
  ∧ delete_task_by_id requests_get (S fuel) task_id d
    = (Raises (NotFoundInFile task_id), d).
Proof.
  intros Hgroup Htask.
  assert (dict_get group_id (groups d) = None) as Hget.
  { apply eq_None_not_Some. by intros ?%dict_mem_is_Some. }
  assert (get_group_by_id group_id d = (Raises (KeyError group_id), d)) as Hg
    by by rewrite get_group_by_id_cases, Hget.
  assert (get_task_by_id requests_get task_id d
          = (Raises (NotFoundInFile task_id), d)) as Ht
    by by rewrite get_task_by_id_cases, Htask.
  repeat split; [done| |done|].
  - unfold delete_group_by_id, bind. by rewrite Hg.
  - simpl. unfold bind. by rewrite Ht.
Qed.

Lemma absent_ids_raise_witness :
  get_group_by_id "G_9" doc_one = (Raises (KeyError "G_9"), doc_one)
  ∧ delete_group_by_id no_network 0 "G_9" doc_one
    = (Raises (KeyError "G_9"), doc_one)
  ∧ get_task_by_id no_network "T_9" doc_one
    = (Raises (NotFoundInFile "T_9"), doc_one)
  ∧ delete_task_by_id no_network 1 "T_9" doc_one
    = (Raises (NotFoundInFile "T_9"), doc_one).
Proof.
  apply (absent_ids_raise no_network 0 "G_9" "T_9" doc_one).
  - apply (bool_decide_unpack _). by vm_compute.
  - by vm_compute.
Defined.

(** X24: [delete_task_by_id] never returns normally and never removes a
    record from [tasks]; with more fuel than there are places the task is
    listed in, it ends in an exception of the program. *)
Theorem delete_task_by_id_never_deletes
    (requests_get : string → option Response) (fuel : nat)
    (task_id : string) (d : document) :
  listed task_id (groups d) < fuel →
  ∃ e,
    (delete_task_by_id requests_get fuel task_id d).1 = Raises e
    ∧ e ≠ OutOfFuel
    ∧ tasks (delete_task_by_id requests_get fuel task_id d).2 = tasks d.
Proof.
  intros Hfuel.
  destruct (delete_task_by_id_ends requests_get fuel task_id d Hfuel)
    as (e & He & Hreal).
  exists e. split; [done|]. split; [done|]. apply delete_task_by_id_tasks.
Qed.

Lemma delete_task_by_id_never_deletes_witness :
  ∃ e,
    (delete_task_by_id no_network 2 "T_1" doc_one).1 = Raises e
    ∧ e ≠ OutOfFuel
    ∧ tasks (delete_task_by_id no_network 2 "T_1" doc_one).2 = tasks doc_one.
Proof.
  apply (delete_task_by_id_never_deletes no_network 2 "T_1" doc_one).
  vm_compute. lia.
Defined.

(** X25: deleting a stored group that has a member never returns normally,
    and every task record is still there afterwards. *)
Theorem delete_group_with_member_fails
    (requests_get : string → option Response) (fuel : nat)
    (group_id : string) (group_data : GroupData.t) (d : document) :
  dict_get group_id (groups d) = Some group_data →
  GroupData.group_tasks group_data ≠ [] →
  (∃ e, (delete_group_by_id requests_get fuel group_id d).1 = Raises e)
  ∧ tasks (delete_group_by_id requests_get fuel group_id d).2 = tasks d.
Proof.
  intros Hget Hmember. split.
  - by eapply delete_group_by_id_with_member.
  - apply delete_group_by_id_tasks.
Qed.

Lemma delete_group_with_member_fails_witness :
  (∃ e, (delete_group_by_id no_network 2 "G_1" doc_one).1 = Raises e)
  ∧ tasks (delete_group_by_id no_network 2 "G_1" doc_one).2 = tasks doc_one.
Proof.
  apply (delete_group_with_member_fails no_network 2 "G_1"
           (GroupData.mk "Web" ["T_1"]) doc_one).
  - reflexivity.
  - discriminate.
Defined.

(** ** Iterating again *)

(** X26: iterating a group changes nothing but the position of the
    iteration: a second iteration yields the same ids as the first, and once
    the iteration has stopped, [__next__] goes on raising [StopIteration]. *)
Theorem iteration_can_be_repeated (self : GroupClass.obj) (fuel : nat) :
  length (GroupClass.group_tasks self) - 1 < fuel →
  ((GroupClass_iterate fuel ;;; GroupClass_iterate fuel) self).1
  = (GroupClass_iterate fuel self).1
  ∧ GroupClass.group_tasks (GroupClass_iterate fuel self).2
    = GroupClass.group_tasks self
  ∧ (GroupClass_next (GroupClass_iterate fuel self).2).1 = Raises StopIteration.
Proof.
  intros Hfuel. unfold bind. rewrite !GroupClass_iterate_run by done.
  simpl.
  split; [done|]. split; [done|].
  unfold GroupClass_next. simpl.
  rewrite (proj2 (Z.ltb_ge _ _)) by lia. done.
Qed.

Lemma iteration_can_be_repeated_witness :
  ((GroupClass_iterate 3 ;;; GroupClass_iterate 3)
     (GroupClass.mk "G_1" "Web" ["a"; "b"; "c"] None)).1
  = (GroupClass_iterate 3 (GroupClass.mk "G_1" "Web" ["a"; "b"; "c"] None)).1
  ∧ GroupClass.group_tasks
      (GroupClass_iterate 3 (GroupClass.mk "G_1" "Web" ["a"; "b"; "c"] None)).2
    = GroupClass.group_tasks (GroupClass.mk "G_1" "Web" ["a"; "b"; "c"] None)
  ∧ (GroupClass_next
       (GroupClass_iterate 3
          (GroupClass.mk "G_1" "Web" ["a"; "b"; "c"] None)).2).1
    = Raises StopIteration.
Proof.
  apply (iteration_can_be_repeated
           (GroupClass.mk "G_1" "Web" ["a"; "b"; "c"] None) 3).
  simpl. lia.
Defined.

(** ** URLs that pass *)

(** X27: when every candidate of the string passes [verify_url_root], the
    setter stores exactly the checked form of every candidate, in order. *)
Theorem url_setter_all_candidates_pass
    (requests_get : string → option Response) (new_url : string) :
  Forall (λ u, is_Some (verify_url_root requests_get u))
    (str_split (str_replace ","%char " "%char new_url)) →
  url_setter requests_get (UrlStr new_url)
  = url_checked requests_get
      (str_split (str_replace ","%char " "%char new_url))
  ∧ length (url_setter requests_get (UrlStr new_url))
    = length (str_split (str_replace ","%char " "%char new_url)).
Proof.
  intros Hpass. rewrite url_setter_scan, url_scan_all_kept by done.
  split; [done|]. unfold url_checked.
  induction Hpass as [|u rest [fixed_url Hu] _ IH]; simpl; [done|].
  rewrite Hu. simpl. f_equal. exact IH.
Qed.

Lemma url_setter_all_candidates_pass_witness :
  url_setter one_site_network (UrlStr "good.example, http://good.example")
  = url_checked one_site_network
      (str_split (str_replace ","%char " "%char
                    "good.example, http://good.example"))
  ∧ length (url_setter one_site_network
              (UrlStr "good.example, http://good.example"))
    = length (str_split (str_replace ","%char " "%char
                           "good.example, http://good.example")).
Proof.
  apply (url_setter_all_candidates_pass one_site_network
           "good.example, http://good.example").
  apply (bool_decide_unpack _). by vm_compute.
Defined.



(** ** Store initialization, again *)

(** X29: whenever the initialization returns, the file holds a JSON object
    with the three keys, and running the initialization again changes
    nothing. *)
Theorem initialize_establishes_the_keys (f f' : Init.backing_file) :
  Init.initialize f = (Returns tt, f') →
  (∃ members,
      f' = Init.Holds (JObj members)
      ∧ Init.has_key "settings" members = true
      ∧ Init.has_key "groups" members = true
      ∧ Init.has_key "tasks" members = true)
  ∧ Init.initialize f' = (Returns tt, f').
Proof.
  assert (∀ members,
            Init.initialize (Init.Holds (JObj members))
            = (Returns tt, Init.Holds (JObj members)) →
            Init.has_key "settings" members = true
            ∧ Init.has_key "groups" members = true
            ∧ Init.has_key "tasks" members = true) as Hkeys.
  { intros members. unfold Init.initialize, Init.try_body, Init.subscript,
      Init.has_key. run.
    destruct (dict_get "settings" members) eqn:Hs; [|by intros [= <-]].
    destruct (dict_get "groups" members) eqn:Hg; [|by intros [= <-]].
    destruct (dict_get "tasks" members) eqn:Ht; [|by intros [= <-]].
    intros _. by rewrite !bool_decide_eq_true_2 by by eexists. }
  assert (Init.initialize (Init.Holds Init.empty_json)
          = (Returns tt, Init.Holds Init.empty_json)) as Hempty by done.
  assert (∃ members,
            Init.Holds Init.empty_json = Init.Holds (JObj members)
            ∧ Init.has_key "settings" members = true
            ∧ Init.has_key "groups" members = true
            ∧ Init.has_key "tasks" members = true) as Hrepaired.
  { eexists. split; [reflexivity|]. by apply Hkeys. }
  destruct f as [| | | |data]; cbn; try (by intros [=]).
  - by intros [= <-].
  - by intros [= <-].
  - destruct data as [| | | | |members]; cbn; try (by intros [=]).
    unfold Init.initialize at 1, Init.try_body, Init.subscript. run.
    destruct (dict_get "settings" members) eqn:Hs; [|by intros [= <-]].
    destruct (dict_get "groups" members) eqn:Hg; [|by intros [= <-]].
    destruct (dict_get "tasks" members) eqn:Ht; [|by intros [= <-]].
    intros [= <-].
    assert (Init.initialize (Init.Holds (JObj members))
            = (Returns tt, Init.Holds (JObj members))) as Hsame.
    { unfold Init.initialize, Init.try_body, Init.subscript. run.
      by rewrite Hs, Hg, Ht. }
    split; [|done]. eexists. split; [done|]. by apply Hkeys.
Qed.

Lemma initialize_establishes_the_keys_witness :
  (∃ members,
      Init.Holds Init.empty_json = Init.Holds (JObj members)
      ∧ Init.has_key "settings" members = true
      ∧ Init.has_key "groups" members = true
      ∧ Init.has_key "tasks" members = true)
  ∧ Init.initialize (Init.Holds Init.empty_json)
    = (Returns tt, Init.Holds Init.empty_json).
Proof.
  apply (initialize_establishes_the_keys Init.Malformed
           (Init.Holds Init.empty_json)).
  reflexivity.
Defined.

(** ** Editing a task *)

(** X30: [edit_task] always returns; it keeps the id and the group of the
    task, stores the new fields (the url as the setter normalizes it) under
    the id, and leaves every other record, the groups and the settings as
    they were. *)
Theorem edit_task_rewrites_one_record
    (requests_get : string → option Response) (task_name : string)
    (button_text : option string) (url : url_arg)
    (file_path directory_path : option string)
    (self : TaskClass.obj) (d : document) (other : string) :
  other ≠ TaskClass.task_id self →
  ∃ self' d',
    TaskClass_edit_task requests_get task_name button_text url file_path
      directory_path (self, d) = (Returns tt, (self', d'))
    ∧ TaskClass.task_id self' = TaskClass.task_id self
    ∧ TaskClass.group_id self' = TaskClass.group_id self
    ∧ tasks d' !! TaskClass.task_id self
      = Some (TaskData.mk task_name button_text
                (url_setter requests_get url) file_path directory_path)
    ∧ tasks d' !! other = tasks d !! other
    ∧ groups d' = groups d
    ∧ settings d' = settings d.
Proof.
  intros Hother. unfold TaskClass_edit_task, TaskClass_save_task. run.
  eexists _, _. split; [reflexivity|]. simpl.
  rewrite lookup_insert_eq, lookup_insert_ne by done. done.
Qed.

Lemma edit_task_rewrites_one_record_witness :
  ∃ self' d',
    TaskClass_edit_task no_network "Mail" (Some "M") UrlNone None None
      (TaskClass.mk "T_1" "G_1" "Open" None [] None None, doc_one)
    = (Returns tt, (self', d'))
    ∧ TaskClass.task_id self'
      = TaskClass.task_id (TaskClass.mk "T_1" "G_1" "Open" None [] None None)
    ∧ TaskClass.group_id self'
      = TaskClass.group_id (TaskClass.mk "T_1" "G_1" "Open" None [] None None)
    ∧ tasks d'
        !! TaskClass.task_id (TaskClass.mk "T_1" "G_1" "Open" None [] None None)
      = Some (TaskData.mk "Mail" (Some "M") (url_setter no_network UrlNone)
                None None)
    ∧ tasks d' !! "T_2" = tasks doc_one !! "T_2"
    ∧ groups d' = groups doc_one
    ∧ settings d' = settings doc_one.
Proof.
  apply (edit_task_rewrites_one_record no_network "Mail" (Some "M") UrlNone
           None None (TaskClass.mk "T_1" "G_1" "Open" None [] None None)
           doc_one "T_2").
  discriminate.
Defined.
